(** * Year projection and valuation engine (internal/valuation/projection.go)

    A shallow embedding of [BuildYearProjection] and of the helpers it calls,
    followed by the properties of the engine.

    Modelling choices.
    - Go's [float64] is IEEE-754 binary64.  It is modelled by the Standard
      Library's [spec_float] with precision 53 and maximal exponent 1024, whose
      operations round to nearest-even, so that equality of two model values
      is bit-for-bit equality of the Go values (up to the payload of a NaN,
      which [spec_float] does not record).  Every operation is rounded on its
      own, as on amd64; the Go compiler may fuse [x*y + z] on some other
      architectures.
    - Go's [int] and [time.Month] are 64-bit integers, modelled by [Z]; the two
      subtractions of the source that could leave the range ([year-1] and
      [m-1]) have the wrap-around written out.
    - Go maps are [gmap]s; a lookup of an absent key yields the zero value.
      A [range] over a Go map visits the entries in an order chosen by the
      runtime; that order is an explicit parameter of the model (a
      [MapOrder]), constrained only to enumerate the entries of the map, each
      once.
    - [sort.Slice] is the insertion sort that Go's runtime runs on slices of
      at most 12 elements, which covers the twelve estimates and a year of
      records; on longer slices Go switches to another algorithm that returns
      the same slice whenever no two elements compare equal.
    - An [error] is modelled by the statement that builds it. *)

From Stdlib Require Import ZArith Bool Lia.
From Stdlib Require Import Floats.SpecFloat.
From stdpp Require Import base option list gmap sorting.

Local Open Scope Z_scope.

(** ** float64 *)

Definition float64 : Type := spec_float.

Definition f64_prec : Z := 53.
Definition f64_emax : Z := 1024.

Definition f64_add : float64 → float64 → float64 := SFadd f64_prec f64_emax.
Definition f64_sub : float64 → float64 → float64 := SFsub f64_prec f64_emax.
Definition f64_mul : float64 → float64 → float64 := SFmul f64_prec f64_emax.
Definition f64_div : float64 → float64 → float64 := SFdiv f64_prec f64_emax.

(** [float64(n)] for an integer [n], and the integer constants of the source. *)
Definition float64_of_int (n : Z) : float64 :=
  binary_normalize f64_prec f64_emax n 0 false.

Definition f64_zero : float64 := S754_zero false.
Definition f64_one : float64 := Eval vm_compute in float64_of_int 1.
Definition f64_two : float64 := Eval vm_compute in float64_of_int 2.

(** Go's [x <= 0] and [x > 0] on a float64: both are false on a NaN. *)
Definition le_zero (x : float64) : bool := SFleb x f64_zero.
Definition gt_zero (x : float64) : bool := SFltb f64_zero x.

Definition is_nan (x : float64) : bool :=
  match x with S754_nan => true | _ => false end.
Definition is_zero (x : float64) : bool :=
  match x with S754_zero _ => true | _ => false end.
Definition is_finite (x : float64) : bool :=
  match x with S754_zero _ | S754_finite _ _ _ => true | _ => false end.

Declare Scope f64_scope.
Delimit Scope f64_scope with f64.
Infix "+" := f64_add : f64_scope.
Infix "-" := f64_sub : f64_scope.
Infix "*" := f64_mul : f64_scope.

(** ** Machine integers *)

Definition wrap64 (z : Z) : Z := (z + 2 ^ 63) `mod` 2 ^ 64 - 2 ^ 63.

(** [time.January] and [time.December]. *)
Definition January : Z := 1.
Definition December : Z := 12.

(** ** sort.Slice *)

Section sort.
Context {A : Type} (less : A → A → bool).

(** One pass of the inner loop: [x] travels from the right end of the
    sorted prefix (given reversed) towards the left for as long as it is
    [less] than its left neighbour. *)
Fixpoint insertBack (x : A) (rprefix : list A) : list A :=
  match rprefix with
  | [] => [x]
  | y :: r => if less x y then y :: insertBack x r else x :: y :: r
  end.

Definition sortSlice (data : list A) : list A :=
  rev (fold_left (λ r x, insertBack x r) data []).
End sort.

(** ** Data model *)

Module MonthlyRevenue.
Record t : Type := mk { Year : Z; Month : Z; Revenue : float64 }.
Definition zero : t := mk 0 0 f64_zero.
End MonthlyRevenue.

Module MonthEstimate.
Record t : Type := mk {
  Year : Z;
  Month : Z;
  Revenue : float64;
  PreviousRevenue : float64;
  YoY : float64;
  PreviousMonthRevenue : float64;
  MoM : float64;
  ReferenceYoY : float64;
  ReferenceMoM : float64;
  ReferenceRevenue : float64;
  HasReference : bool;
  IsActual : bool
}.
End MonthEstimate.

Module QuarterInputs.
Record t : Type := mk {
  GrossMargin : float64;
  OperatingExpense : float64;
  NonOperatingIncome : float64;
  TaxRate : float64
}.
End QuarterInputs.

Module QuarterBreakdown.
Record t : Type := mk {
  Quarter : Z;
  Revenue : float64;
  GrossProfit : float64;
  OperatingIncome : float64;
  PreTaxIncome : float64;
  NetIncome : float64;
  EPS : float64;
  IsActual : bool
}.
End QuarterBreakdown.

(** The four fields are pointers in the source: [None] is [nil]. *)
Module QuarterOverride.
Record t : Type := mk {
  GrossMargin : option float64;
  OperatingExpense : option float64;
  NonOperatingIncome : option float64;
  TaxRate : option float64
}.
End QuarterOverride.

Module QuarterActual.
Record t : Type := mk { NetIncome : float64; EPS : float64 }.
End QuarterActual.

(** The two maps may be [nil] ([None]) in the source. *)
Module Assumptions.
Record t : Type := mk {
  GrossMargin : float64;
  OperatingExpense : float64;
  NonOperatingIncome : float64;
  TaxRate : float64;
  SharesOutstanding : float64;
  PrevQuarterEPS : float64;
  PerMultiple : float64;
  CurrentPrice : float64;
  QuarterOverrides : option (gmap Z QuarterOverride.t);
  ActualQuarters : option (gmap Z QuarterActual.t)
}.
End Assumptions.

Module YearProjection.
Record t : Type := mk {
  Year : Z;
  Months : list MonthEstimate.t;
  Quarters : list QuarterBreakdown.t;
  AnnualRevenue : float64;
  AnnualEPS : float64;
  EstimatedPrice : float64;
  Upside : float64;
  AvgYoY : float64;
  AvgMoM : float64
}.
(** [YearProjection{}] *)
Definition zero : t :=
  mk 0 [] [] f64_zero f64_zero f64_zero f64_zero f64_zero f64_zero.
End YearProjection.

(** The two errors that [BuildYearProjection] builds with [fmt.Errorf]. *)
Inductive error : Type :=
  | ErrMissingYear (year : Z)
  | ErrSharesOutstanding.

(** ** internal/revenue/record.go *)

Definition lessMonthlyRevenue (a b : MonthlyRevenue.t) : bool :=
  if MonthlyRevenue.Year a =? MonthlyRevenue.Year b
  then MonthlyRevenue.Month a <? MonthlyRevenue.Month b
  else MonthlyRevenue.Year a <? MonthlyRevenue.Year b.

Definition SortMonthlyRevenues (records : list MonthlyRevenue.t)
  : list MonthlyRevenue.t :=
  sortSlice lessMonthlyRevenue records.

(** ** internal/valuation/projection.go *)

(** The order in which one [range] statement visits a map. *)
Definition MapOrder : Type :=
  gmap Z MonthlyRevenue.t → list (Z * MonthlyRevenue.t).

Definition ValidOrder (range : MapOrder) : Prop :=
  ∀ m, range m ≡ₚ map_to_list m.

Definition previousMonth (m : Z) : Z :=
  if m =? January then December else wrap64 (m - 1).

Definition previousYearMonthRevenue
    (current : gmap Z MonthlyRevenue.t) (prev : gmap Z float64)
    (rec : MonthlyRevenue.t) : float64 :=
  let prevMonth := previousMonth (MonthlyRevenue.Month rec) in
  let otherwise :=
    if prevMonth =? December
    then match prev !! prevMonth with Some v => v | None => f64_zero end
    else f64_zero in
  match current !! prevMonth with
  | Some prevRec =>
      if MonthlyRevenue.Year prevRec =? MonthlyRevenue.Year rec
      then MonthlyRevenue.Revenue prevRec
      else otherwise
  | None => otherwise
  end.

Definition quarterInputs (a : Assumptions.t) (q : Z) : QuarterInputs.t :=
  let inputs :=
    QuarterInputs.mk (Assumptions.GrossMargin a) (Assumptions.OperatingExpense a)
      (Assumptions.NonOperatingIncome a) (Assumptions.TaxRate a) in
  match Assumptions.QuarterOverrides a with
  | None => inputs
  | Some overrides =>
      match overrides !! q with
      | None => inputs
      | Some override =>
          QuarterInputs.mk
            (default (QuarterInputs.GrossMargin inputs)
               (QuarterOverride.GrossMargin override))
            (default (QuarterInputs.OperatingExpense inputs)
               (QuarterOverride.OperatingExpense override))
            (default (QuarterInputs.NonOperatingIncome inputs)
               (QuarterOverride.NonOperatingIncome override))
            (default (QuarterInputs.TaxRate inputs)
               (QuarterOverride.TaxRate override))
      end
  end.

(** [monthMap] (lines 99-105) and [prevMap] (lines 106-109). *)
Definition buildMonthMap (year : Z) (current : list MonthlyRevenue.t)
  : gmap Z MonthlyRevenue.t :=
  fold_left
    (λ monthMap rec,
       if MonthlyRevenue.Year rec =? year
       then <[MonthlyRevenue.Month rec := rec]> monthMap
       else monthMap)
    current ∅.

Definition buildPrevMap (previous : list MonthlyRevenue.t) : gmap Z float64 :=
  fold_left
    (λ prevMap rec,
       <[MonthlyRevenue.Month rec := MonthlyRevenue.Revenue rec]> prevMap)
    previous ∅.

(** The sum, the count and the per-month table of a reference rate. *)
Record rates : Type := mkRates {
  rateSum : float64;
  rateCount : Z;
  rateOf : gmap Z float64
}.

Definition noRates : rates := mkRates f64_zero 0 ∅.

(** The state of the month loop (lines 161-231). *)
Record monthLoop : Type := mkMonthLoop {
  months : list MonthEstimate.t;
  totalRevenue : float64;
  lastRevenue : float64
}.

(** The state of the quarter loop (lines 234-282). *)
Record quarterLoop : Type := mkQuarterLoop {
  quarters : list QuarterBreakdown.t;
  annualEPS : float64
}.

Section BuildYearProjection.
(** Go's [/] on float64; abstract so that the reachability of a division
    by a divisor that is not positive can be stated. *)
Variable div : float64 → float64 → float64.
(** The orders of the two [range monthMap] statements (lines 117, 129). *)
Variable range117 range129 : MapOrder.

Local Infix "/" := div : f64_scope.

Definition chooseReferenceRevenue
    (prevYear prevMonth revenueYoY revenueMoM : float64) : float64 :=
  if gt_zero prevYear && gt_zero prevMonth
  then ((revenueYoY + revenueMoM) / f64_two)%f64
  else if gt_zero prevYear then revenueYoY
  else if gt_zero prevMonth then revenueMoM
  else f64_zero.

(** Lines 117-126. *)
Definition yoyStep (prevMap : gmap Z float64) (acc : rates)
    (entry : Z * MonthlyRevenue.t) : rates :=
  let '(month, rec) := entry in
  let prev := default f64_zero (prevMap !! month) in
  if le_zero prev then acc
  else
    let yoy := ((MonthlyRevenue.Revenue rec - prev) / prev)%f64 in
    mkRates (rateSum acc + yoy)%f64 (rateCount acc + 1)
      (<[month := yoy]> (rateOf acc)).

(** Lines 128-132. *)
Definition sortedMonths (monthMap : gmap Z MonthlyRevenue.t) : list Z :=
  sortSlice Z.ltb ((range129 monthMap).*1).

(** Lines 133-151. *)
Definition momStep (monthMap : gmap Z MonthlyRevenue.t)
    (prevMap : gmap Z float64) (acc : rates) (month : Z) : rates :=
  let rec := default MonthlyRevenue.zero (monthMap !! month) in
  let prevMonth := previousMonth month in
  let otherwise :=
    if prevMonth =? December
    then match prevMap !! prevMonth with Some prev => prev | None => f64_zero end
    else f64_zero in
  let prevRevenue :=
    match monthMap !! prevMonth with
    | Some prevRec =>
        if MonthlyRevenue.Year prevRec =? MonthlyRevenue.Year rec
        then MonthlyRevenue.Revenue prevRec
        else otherwise
    | None => otherwise
    end in
  if le_zero prevRevenue then acc
  else
    let mom := ((MonthlyRevenue.Revenue rec - prevRevenue) / prevRevenue)%f64 in
    mkRates (rateSum acc + mom)%f64 (rateCount acc + 1)
      (<[month := mom]> (rateOf acc)).

(** Lines 152-159. *)
Definition average (acc : rates) : float64 :=
  if 0 <? rateCount acc
  then (rateSum acc / float64_of_int (rateCount acc))%f64
  else f64_zero.

(** Lines 165-187: the estimate of a month [m] that has a record [rec];
    [lastRevenue] is the running last-known revenue. *)
Definition actualEstimate (year : Z) (monthMap : gmap Z MonthlyRevenue.t)
    (prevMap actualYoY actualMoM : gmap Z float64)
    (lastRevenue : float64) (m : Z) (rec : MonthlyRevenue.t)
  : MonthEstimate.t :=
  let prevYearRevenue := default f64_zero (prevMap !! m) in
  let prevMonthRevenue := lastRevenue in
  let yoy := default f64_zero (actualYoY !! m) in
  let prevMonthRevenue :=
    if le_zero prevMonthRevenue
    then previousYearMonthRevenue monthMap prevMap rec
    else prevMonthRevenue in
  let mom :=
    match actualMoM !! m with
    | Some mom => mom
    | None =>
        if gt_zero prevMonthRevenue
        then ((MonthlyRevenue.Revenue rec - prevMonthRevenue) / prevMonthRevenue)%f64
        else f64_zero
    end in
  MonthEstimate.mk year m (MonthlyRevenue.Revenue rec) prevYearRevenue yoy
    prevMonthRevenue mom f64_zero f64_zero f64_zero false true.

(** Lines 178-190. *)
Definition actualMonth (year : Z) (monthMap : gmap Z MonthlyRevenue.t)
    (prevMap actualYoY actualMoM : gmap Z float64)
    (st : monthLoop) (m : Z) (rec : MonthlyRevenue.t) : monthLoop :=
  mkMonthLoop
    (months st ++
       [actualEstimate year monthMap prevMap actualYoY actualMoM
          (lastRevenue st) m rec])
    (totalRevenue st + MonthlyRevenue.Revenue rec)%f64
    (MonthlyRevenue.Revenue rec).

(** Lines 165-166 and 192-226: the estimate of a month [m] that has no
    record. *)
Definition missingEstimate (year : Z) (prevMap manualYoY : gmap Z float64)
    (avgYoY avgMoM : float64) (lastRevenue : float64) (m : Z)
  : MonthEstimate.t :=
  let prevYearRevenue := default f64_zero (prevMap !! m) in
  let prevMonthRevenue := lastRevenue in
  let yoy := match manualYoY !! m with Some v => v | None => avgYoY end in
  let referenceYoY := yoy in
  let referenceMoM := avgMoM in
  let revenueYoY := (prevYearRevenue * (f64_one + referenceYoY))%f64 in
  let revenueMoM := (prevMonthRevenue * (f64_one + referenceMoM))%f64 in
  let '(hasReference, revenue) :=
    if gt_zero prevYearRevenue then (true, revenueYoY)
    else if gt_zero prevMonthRevenue then (true, revenueMoM)
    else (false, revenueYoY) in
  let mom :=
    if gt_zero prevMonthRevenue
    then ((revenue - prevMonthRevenue) / prevMonthRevenue)%f64
    else f64_zero in
  MonthEstimate.mk year m revenue prevYearRevenue yoy prevMonthRevenue
    mom referenceYoY referenceMoM
    (chooseReferenceRevenue prevYearRevenue prevMonthRevenue
       revenueYoY revenueMoM)
    hasReference false.

(** Lines 213-231. *)
Definition missingMonth (year : Z) (prevMap manualYoY : gmap Z float64)
    (avgYoY avgMoM : float64) (st : monthLoop) (m : Z) : monthLoop :=
  let estimate :=
    missingEstimate year prevMap manualYoY avgYoY avgMoM (lastRevenue st) m in
  let revenue := MonthEstimate.Revenue estimate in
  mkMonthLoop
    (months st ++ [estimate])
    (totalRevenue st + revenue)%f64
    (if gt_zero revenue then revenue else lastRevenue st).

(** One iteration of [for m := time.January; m <= time.December; m++]. *)
Definition monthStep (year : Z) (monthMap : gmap Z MonthlyRevenue.t)
    (prevMap manualYoY actualYoY actualMoM : gmap Z float64)
    (avgYoY avgMoM : float64) (st : monthLoop) (m : Z) : monthLoop :=
  match monthMap !! m with
  | Some rec => actualMonth year monthMap prevMap actualYoY actualMoM st m rec
  | None => missingMonth year prevMap manualYoY avgYoY avgMoM st m
  end.

(** Lines 241-252: the first item of [months] whose month is [m], if any,
    is added to the quarter. *)
Definition quarterMonthStep (months : list MonthEstimate.t)
    (acc : float64 * bool) (m : Z) : float64 * bool :=
  match List.find (λ item, MonthEstimate.Month item =? m) months with
  | Some item =>
      ((acc.1 + MonthEstimate.Revenue item)%f64,
       if MonthEstimate.IsActual item then acc.2 else false)
  | None => acc
  end.

(** The override of lines 269-279. *)
Definition discloseQuarter (asm : Assumptions.t) (q : Z)
    (quarter : QuarterBreakdown.t) : QuarterBreakdown.t :=
  match Assumptions.ActualQuarters asm with
  | None => quarter
  | Some actualQuarters =>
      match actualQuarters !! q with
      | Some actual =>
          if gt_zero (QuarterActual.NetIncome actual)
          then
            QuarterBreakdown.mk
              (QuarterBreakdown.Quarter quarter)
              (QuarterBreakdown.Revenue quarter)
              (QuarterBreakdown.GrossProfit quarter)
              (QuarterBreakdown.OperatingIncome quarter)
              (QuarterBreakdown.PreTaxIncome quarter)
              (QuarterActual.NetIncome actual)
              (if gt_zero (QuarterActual.EPS actual)
               then QuarterActual.EPS actual
               else (QuarterActual.NetIncome actual
                     / Assumptions.SharesOutstanding asm)%f64)
              true
          else quarter
      | None => quarter
      end
  end.

(** Lines 237-279: the breakdown of quarter [q]. *)
Definition buildQuarter (months : list MonthEstimate.t) (asm : Assumptions.t)
    (q : Z) : QuarterBreakdown.t :=
  let start := (q - 1) * 3 + 1 in
  let '(revenueSum, allActual) :=
    fold_left (quarterMonthStep months) (seqZ start 3) (f64_zero, true) in
  let inputs := quarterInputs asm q in
  let gross := (revenueSum * QuarterInputs.GrossMargin inputs)%f64 in
  let operating := (gross - QuarterInputs.OperatingExpense inputs)%f64 in
  let preTax := (operating + QuarterInputs.NonOperatingIncome inputs)%f64 in
  let netIncome := (preTax * (f64_one - QuarterInputs.TaxRate inputs))%f64 in
  let eps := (netIncome / Assumptions.SharesOutstanding asm)%f64 in
  discloseQuarter asm q
    (QuarterBreakdown.mk q revenueSum gross operating preTax netIncome eps
       allActual).

(** One iteration of [for q := 1; q <= 4; q++]. *)
Definition quarterStep (months : list MonthEstimate.t) (asm : Assumptions.t)
    (st : quarterLoop) (q : Z) : quarterLoop :=
  let quarter := buildQuarter months asm q in
  mkQuarterLoop (quarters st ++ [quarter])
    (annualEPS st + QuarterBreakdown.EPS quarter)%f64.

Definition lessMonthEstimate (a b : MonthEstimate.t) : bool :=
  MonthEstimate.Month a <? MonthEstimate.Month b.

(** The reference rates of lines 111-159. *)
Definition yoyRates (monthMap : gmap Z MonthlyRevenue.t)
    (prevMap : gmap Z float64) : rates :=
  fold_left (yoyStep prevMap) (range117 monthMap) noRates.

Definition momRates (monthMap : gmap Z MonthlyRevenue.t)
    (prevMap : gmap Z float64) : rates :=
  fold_left (momStep monthMap prevMap) (sortedMonths monthMap) noRates.

(** The month loop run over the months [ms]. *)
Definition runMonths (year : Z) (monthMap : gmap Z MonthlyRevenue.t)
    (prevMap manualYoY : gmap Z float64) (ms : list Z) : monthLoop :=
  let yoys := yoyRates monthMap prevMap in
  let moms := momRates monthMap prevMap in
  fold_left
    (monthStep year monthMap prevMap manualYoY (rateOf yoys) (rateOf moms)
       (average yoys) (average moms))
    ms (mkMonthLoop [] f64_zero f64_zero).

(** Lines 111-300: the projection, from the two tables of revenue. *)
Definition buildProjection (year : Z) (monthMap : gmap Z MonthlyRevenue.t)
    (prevMap manualYoY : gmap Z float64) (asm : Assumptions.t)
  : YearProjection.t :=
  let avgYoY := average (yoyRates monthMap prevMap) in
  let avgMoM := average (momRates monthMap prevMap) in
  let loop := runMonths year monthMap prevMap manualYoY (seqZ 1 12) in
  let months := sortSlice lessMonthEstimate (months loop) in
  let qloop :=
    fold_left (quarterStep months asm) (seqZ 1 4) (mkQuarterLoop [] f64_zero) in
  let estimatedPrice := (annualEPS qloop * Assumptions.PerMultiple asm)%f64 in
  let upside :=
    if gt_zero (Assumptions.CurrentPrice asm)
    then ((estimatedPrice - Assumptions.CurrentPrice asm)
          / Assumptions.CurrentPrice asm)%f64
    else f64_zero in
  YearProjection.mk year months (quarters qloop) (totalRevenue loop)
    (annualEPS qloop) estimatedPrice upside avgYoY avgMoM.

Definition BuildYearProjectionWith (year : Z)
    (grouped : gmap Z (list MonthlyRevenue.t))
    (manualYoY : gmap Z float64) (asm : Assumptions.t)
  : YearProjection.t * option error :=
  let current := SortMonthlyRevenues (default [] (grouped !! year)) in
  let previous :=
    SortMonthlyRevenues (default [] (grouped !! wrap64 (year - 1))) in
  if bool_decide (current = []) then
    (YearProjection.zero, Some (ErrMissingYear year))
  else if le_zero (Assumptions.SharesOutstanding asm) then
    (YearProjection.zero, Some ErrSharesOutstanding)
  else
    (buildProjection year (buildMonthMap year current)
       (buildPrevMap previous) manualYoY asm,
     None).
End BuildYearProjection.

(** The engine as it runs: [/] is the division of float64. *)
Definition BuildYearProjection : MapOrder → MapOrder → Z →
    gmap Z (list MonthlyRevenue.t) → gmap Z float64 → Assumptions.t →
    YearProjection.t * option error :=
  BuildYearProjectionWith f64_div.

(** ** Vocabulary of the statements *)

(** [monthMap] and [prevMap] as [BuildYearProjection] builds them. *)
Definition currentMonths (year : Z) (grouped : gmap Z (list MonthlyRevenue.t))
  : gmap Z MonthlyRevenue.t :=
  buildMonthMap year (SortMonthlyRevenues (default [] (grouped !! year))).

Definition priorYear (year : Z) (grouped : gmap Z (list MonthlyRevenue.t))
  : gmap Z float64 :=
  buildPrevMap (SortMonthlyRevenues (default [] (grouped !! wrap64 (year - 1)))).

(** A month of the target year is reported when [revenueByYear[year]] holds a
    record of that year for it; it is missing otherwise. *)
Definition reported (year : Z) (grouped : gmap Z (list MonthlyRevenue.t))
    (m : Z) : Prop :=
  ∃ rec, rec ∈ default [] (grouped !! year)
         ∧ MonthlyRevenue.Year rec = year ∧ MonthlyRevenue.Month rec = m.

(** The estimate that one iteration of the month loop appends. *)
Definition stepEstimate (div : float64 → float64 → float64) (year : Z)
    (monthMap : gmap Z MonthlyRevenue.t)
    (prevMap manualYoY actualYoY actualMoM : gmap Z float64)
    (avgYoY avgMoM : float64) (last : float64) (m : Z) : MonthEstimate.t :=
  match monthMap !! m with
  | Some rec => actualEstimate div year monthMap prevMap actualYoY actualMoM last m rec
  | None => missingEstimate div year prevMap manualYoY avgYoY avgMoM last m
  end.

(** The state of the month loop of [BuildYearProjection] when it enters the
    iteration of month [m]; its [lastRevenue] is the running last-known
    revenue that month [m] sees. *)
Definition stateBefore (range117 range129 : MapOrder) (year : Z)
    (grouped : gmap Z (list MonthlyRevenue.t)) (manualYoY : gmap Z float64)
    (m : Z) : monthLoop :=
  runMonths f64_div range117 range129 year (currentMonths year grouped)
    (priorYear year grouped) manualYoY (seqZ 1 (m - 1)).

(** The revenue against which line 147 computes the month-over-month point
    of [month]: what [previousYearMonthRevenue] returns for a record of
    [month] with the year of the record that [monthMap] holds. *)
Definition pointAnchor (monthMap : gmap Z MonthlyRevenue.t)
    (prevMap : gmap Z float64) (month : Z) : float64 :=
  previousYearMonthRevenue monthMap prevMap
    (MonthlyRevenue.mk
       (MonthlyRevenue.Year (default MonthlyRevenue.zero (monthMap !! month)))
       month f64_zero).

(** A weakly increasing list of keys, starting above [prev]. *)
Fixpoint ascending (prev : Z) (ks : list Z) : bool :=
  match ks with
  | [] => true
  | k :: ks' => (prev <=? k) && ascending k ks'
  end.

(** A division that yields a NaN whenever the divisor is [<= 0]. *)
Definition guardedDiv (x d : float64) : float64 :=
  if le_zero d then S754_nan else f64_div x d.

(** ** Two rules in the words of the specification

    They are compared with what the code computes. *)

(** The reference revenue of a missing month according to C6: the tests bear
    on the two candidate revenues. *)
Definition referenceRevenueOfCandidates (revenueYoY revenueMoM : float64)
  : float64 :=
  if gt_zero revenueYoY && gt_zero revenueMoM
  then f64_div (revenueYoY + revenueMoM)%f64 f64_two
  else if gt_zero revenueYoY then revenueYoY
  else if gt_zero revenueMoM then revenueMoM
  else f64_zero.

(** The revenue against which the month-over-month point of an actual month
    [m] is computed according to C5: the reported December of the prior year
    for January, the reported revenue of the month before [m] otherwise. *)
Definition precedingRevenueOfClaim (year : Z)
    (grouped : gmap Z (list MonthlyRevenue.t)) (m : Z) : option float64 :=
  if m =? January then priorYear year grouped !! December
  else MonthlyRevenue.Revenue <$> currentMonths year grouped !! (m - 1).

(** ** Orders of a [range] over a map *)

(** The order of [map_to_list], and its reverse. *)
Definition forwards : MapOrder := map_to_list.
Definition backwards : MapOrder := λ m, reverse (map_to_list m).

(** By increasing month. *)
Definition ascendingOrder : MapOrder :=
  λ m, sortSlice (λ a b : Z * MonthlyRevenue.t, a.1 <? b.1) (map_to_list m).

(** Go starts the iteration of a small map at a random entry and wraps
    around: from one call to the next the enumeration is rotated. *)
Definition rotate (range : MapOrder) : MapOrder :=
  λ m, match range m with
       | [] => []
       | entry :: entries => entries ++ [entry]
       end.

(** ** Concrete inputs *)

(** The helper of the tests: the months 1, 2, ... of [year] with the given
    revenues. *)
Definition buildMonthlyRevenue (year : Z) (values : list Z)
  : list MonthlyRevenue.t :=
  imap (λ i v, MonthlyRevenue.mk year (Z.of_nat i + 1) (float64_of_int v)) values.

(** The float64 of the decimal constant [n / d], and the power [2^k]. *)
Definition ratio (n d : Z) : float64 :=
  f64_div (float64_of_int n) (float64_of_int d).

Definition pow2 (k : Z) : float64 := S754_finite false (2 ^ 52) (k - 52).

(** Assumptions with a given share count and nothing else. *)
Definition sharesOnly (shares : float64) : Assumptions.t :=
  Assumptions.mk f64_zero f64_zero f64_zero f64_zero shares f64_zero f64_zero
    f64_zero None None.

(** The scenario of TestBuildYearProjection: 2023 is fully reported, 2024 has
    January and February, March has a manual rate of 10%, and the first
    quarter of 2024 is disclosed. *)
Definition testGrouped : gmap Z (list MonthlyRevenue.t) :=
  <[2023 := buildMonthlyRevenue 2023
              [300; 280; 320; 330; 340; 350; 360; 370; 380; 390; 400; 410]]>
    (<[2024 := buildMonthlyRevenue 2024 [388; 388]]> ∅).

Definition testManual : gmap Z float64 := <[3 := ratio 1 10]> ∅.

Definition testAssumptions : Assumptions.t :=
  Assumptions.mk (ratio 173 1000) (float64_of_int 38) (float64_of_int 38)
    (ratio 2 10) (float64_of_int 80) f64_zero (float64_of_int 23)
    (float64_of_int 56) None
    (Some (<[1 := QuarterActual.mk (float64_of_int 1000) (ratio 125 100)]> ∅)).

(** Two fully reported years. *)
Definition fullYearsGrouped : gmap Z (list MonthlyRevenue.t) :=
  <[2023 := buildMonthlyRevenue 2023
              [300; 280; 320; 330; 340; 350; 360; 370; 380; 390; 400; 410]]>
    (<[2024 := buildMonthlyRevenue 2024
                 [388; 388; 352; 360; 370; 380; 390; 400; 410; 420; 430; 440]]>
       ∅).

(** Year-over-year rates of 0.1, 0.2 and 0.3. *)
Definition roundingGrouped : gmap Z (list MonthlyRevenue.t) :=
  <[2023 := buildMonthlyRevenue 2023 [10; 10; 10]]>
    (<[2024 := buildMonthlyRevenue 2024 [11; 12; 13]]> ∅).

(** A candidate revenue that is 0 although its anchor is positive: 2023
    reports 100 for January to March, 2024 reports 100 and 50 for January and
    February, and the manual rate of March is -100%. *)
Definition zeroCandidateGrouped : gmap Z (list MonthlyRevenue.t) :=
  <[2023 := buildMonthlyRevenue 2023 [100; 100; 100]]>
    (<[2024 := buildMonthlyRevenue 2024 [100; 50]]> ∅).

Definition zeroCandidateManual : gmap Z float64 :=
  <[3 := float64_of_int (-1)]> ∅.

(** A reported 0 after a positive month: 2024 reports 10 for January and 0
    for February, and nothing is known of 2023. *)
Definition zeroFebruaryGrouped : gmap Z (list MonthlyRevenue.t) :=
  <[2024 := buildMonthlyRevenue 2024 [10; 0]]> ∅.

(** A reported 0 followed by missing months: January 2024 is reported as 0,
    and the records of February and March 2023 hold -5 and 100. *)
Definition zeroJanuaryGrouped : gmap Z (list MonthlyRevenue.t) :=
  <[2023 := [MonthlyRevenue.mk 2023 2 (float64_of_int (-5));
             MonthlyRevenue.mk 2023 3 (float64_of_int 100)]]>
    (<[2024 := [MonthlyRevenue.mk 2024 1 f64_zero]]> ∅).

(** A prior-year revenue below zero: January 2024 is reported as 0 and the
    record of February 2023 holds -5. *)
Definition negativePriorGrouped : gmap Z (list MonthlyRevenue.t) :=
  <[2023 := [MonthlyRevenue.mk 2023 2 (float64_of_int (-5))]]>
    (<[2024 := [MonthlyRevenue.mk 2024 1 f64_zero]]> ∅).

(** A year-over-year rate that overflows: January is reported as 2^-1000 in
    2023 and as 2^1000 in 2024, February 2024 as 0, and March is missing
    without prior-year record. *)
Definition overflowGrouped : gmap Z (list MonthlyRevenue.t) :=
  <[2023 := [MonthlyRevenue.mk 2023 1 (pow2 (-1000))]]>
    (<[2024 := [MonthlyRevenue.mk 2024 1 (pow2 1000);
                MonthlyRevenue.mk 2024 2 f64_zero]]> ∅).

(** ** Facts about sort.Slice *)

Section sort_facts.
Context {A : Type} (less : A → A → bool).

Lemma insertBack_perm (x : A) (r : list A) : insertBack less x r ≡ₚ x :: r.
Proof.
  induction r as [|y r IH]; simpl; [done|].
  destruct (less x y); [|done].
  rewrite IH. apply Permutation_swap.
Qed.

Lemma fold_insertBack_perm (l r : list A) :
  fold_left (λ r x, insertBack less x r) l r ≡ₚ l ++ r.
Proof.
  revert r. induction l as [|x l IH]; intros r; simpl; [done|].
  rewrite IH, insertBack_perm. by rewrite Permutation_middle.
Qed.

Lemma sortSlice_perm (l : list A) : sortSlice less l ≡ₚ l.
Proof.
  unfold sortSlice. rewrite <- Permutation_rev, fold_insertBack_perm.
  by rewrite app_nil_r.
Qed.

Lemma sortSlice_nil_inv (l : list A) : sortSlice less l = [] → l = [].
Proof.
  intros H. apply Permutation_nil_r. rewrite <- H. by rewrite sortSlice_perm.
Qed.

Lemma elem_of_sortSlice (x : A) (l : list A) : x ∈ sortSlice less l ↔ x ∈ l.
Proof. by rewrite sortSlice_perm. Qed.

(** On a slice whose keys already increase, no element moves. *)
Context (key : A → Z) (Hless : ∀ a b, less a b = (key a <? key b)).

Lemma fold_insertBack_ascending (l : list A) (y : A) (r : list A) :
  ascending (key y) (key <$> l) = true →
  fold_left (λ r x, insertBack less x r) l (y :: r) = rev l ++ y :: r.
Proof.
  revert y r. induction l as [|x l IH]; intros y r; simpl; [done|].
  intros [Hyx Hl]%andb_true_iff.
  rewrite Hless. replace (key x <? key y) with false by lia.
  rewrite IH by done. by rewrite <- app_assoc.
Qed.

Lemma sortSlice_ascending (y : A) (l : list A) :
  ascending (key y) (key <$> l) = true → sortSlice less (y :: l) = y :: l.
Proof.
  intros H. unfold sortSlice. simpl.
  rewrite fold_insertBack_ascending by done.
  by rewrite rev_app_distr, rev_involutive.
Qed.
End sort_facts.

Lemma insertBack_descending (x : Z) (r : list Z) :
  StronglySorted (λ a b, b ≤ a) r →
  StronglySorted (λ a b, b ≤ a) (insertBack Z.ltb x r).
Proof.
  induction r as [|y r IH]; simpl; intros Hsorted.
  - by repeat constructor.
  - apply StronglySorted_inv in Hsorted as [Hr Hy].
    destruct (Z.ltb_spec x y) as [Hlt|Hge].
    + constructor; [by apply IH|].
      rewrite (insertBack_perm Z.ltb x r). constructor; [lia|done].
    + constructor; [by constructor|].
      constructor; [done|]. eapply Forall_impl; [exact Hy|].
      simpl. intros z Hz. lia.
Qed.

Lemma fold_insertBack_descending (l r : list Z) :
  StronglySorted (λ a b, b ≤ a) r →
  StronglySorted (λ a b, b ≤ a) (fold_left (λ r x, insertBack Z.ltb x r) l r).
Proof.
  revert r. induction l as [|x l IH]; intros r Hr; simpl; [done|].
  by apply IH, insertBack_descending.
Qed.

Lemma rev_descending (r : list Z) :
  StronglySorted (λ a b, b ≤ a) r → StronglySorted Z.le (rev r).
Proof.
  induction r as [|x r IH]; simpl; intros Hsorted; [constructor|].
  apply StronglySorted_inv in Hsorted as [Hr Hx].
  apply StronglySorted_app. split_and!; [|by apply IH|by repeat constructor].
  intros a b Ha%list_elem_of_In%in_rev%list_elem_of_In
    ->%list_elem_of_singleton.
  by eapply Forall_forall in Hx.
Qed.

Lemma sortSlice_Z_sorted (l : list Z) : StronglySorted Z.le (sortSlice Z.ltb l).
Proof.
  apply rev_descending, fold_insertBack_descending. constructor.
Qed.

(** Sorting integers forgets the order in which they came. *)
Lemma sortSlice_Z_perm (l1 l2 : list Z) :
  l1 ≡ₚ l2 → sortSlice Z.ltb l1 = sortSlice Z.ltb l2.
Proof.
  intros Hperm.
  apply (StronglySorted_unique_strong Z.le); [|apply sortSlice_Z_sorted..|].
  - intros x y _ _ Hxy Hyx. lia.
  - by rewrite !sortSlice_perm.
Qed.

(** ** Facts about float64 *)

Lemma f64_mul_zero_l (x y : float64) :
  is_zero x = true → is_finite y = true → is_zero (x * y)%f64 = true.
Proof. by destruct x, y. Qed.

Lemma gt_zero_not_le_zero (x : float64) : gt_zero x = true → le_zero x = false.
Proof. by destruct x as [[]|[]| |[]]. Qed.

Lemma le_zero_false (x : float64) :
  le_zero x = false ↔ gt_zero x = true ∨ is_nan x = true.
Proof.
  destruct x as [[]|[]| |[]]; cbv; split; intros H; auto;
    try discriminate H; destruct H as [H|H]; discriminate H.
Qed.

Lemma shr_1_pos (q : positive) (r s : bool) :
  1 < Zpos (digits2_pos q) →
  ∃ q' r' s',
    shr_1 (Build_shr_record (Zpos q) r s) = Build_shr_record (Zpos q') r' s'
    ∧ Zpos (digits2_pos q') = Zpos (digits2_pos q) - 1.
Proof.
  destruct q as [p|p|]; simpl; intros H; [| |lia];
    do 3 eexists; (split; [reflexivity|lia]).
Qed.

Lemma iter_shr_1_pos (k q : positive) (r s : bool) :
  Zpos k < Zpos (digits2_pos q) →
  ∃ q' r' s',
    SpecFloat.iter_pos shr_1 k (Build_shr_record (Zpos q) r s)
    = Build_shr_record (Zpos q') r' s'
    ∧ Zpos (digits2_pos q') = Zpos (digits2_pos q) - Zpos k.
Proof.
  revert q r s. induction k as [k IH|k IH|]; intros q r s Hk;
    cbn [SpecFloat.iter_pos].
  - destruct (shr_1_pos q r s) as (q1 & r1 & s1 & -> & H1); [lia|].
    destruct (IH q1 r1 s1) as (q2 & r2 & s2 & -> & H2); [lia|].
    destruct (IH q2 r2 s2) as (q3 & r3 & s3 & -> & H3); [lia|].
    do 3 eexists. split; [reflexivity|lia].
  - destruct (IH q r s) as (q2 & r2 & s2 & -> & H2); [lia|].
    destruct (IH q2 r2 s2) as (q3 & r3 & s3 & -> & H3); [lia|].
    do 3 eexists. split; [reflexivity|lia].
  - by apply shr_1_pos.
Qed.

(** Above the least exponent, shifting a positive mantissa to its canonical
    exponent leaves it positive. *)
Lemma shr_fexp_pos (q : positive) (e : Z) (l : location) :
  emin f64_prec f64_emax < e →
  ∃ q' r' s' e',
    shr_fexp f64_prec f64_emax (Zpos q) e l
    = (Build_shr_record (Zpos q') r' s', e')
    ∧ e ≤ e'.
Proof.
  intros He. unfold shr_fexp, shr. simpl Zdigits2.
  assert (∃ r s, shr_record_of_loc (Zpos q) l = Build_shr_record (Zpos q) r s)
    as (r & s & ->) by (destruct l as [|[]]; by do 2 eexists).
  destruct (fexp f64_prec f64_emax (Zpos (digits2_pos q) + e) - e)
    as [|k|k] eqn:Hshift.
  - do 4 eexists. split; [reflexivity|lia].
  - destruct (iter_shr_1_pos k q r s) as (q' & r' & s' & -> & _).
    + unfold fexp, emin, f64_prec, f64_emax in *. lia.
    + do 4 eexists. split; [reflexivity|lia].
  - do 4 eexists. split; [reflexivity|lia].
Qed.

Lemma round_nearest_even_pos (q : positive) (l : location) :
  ∃ q', round_nearest_even (Zpos q) l = Zpos q'.
Proof.
  destruct l as [|[]]; simpl; try by eexists.
  destruct q; by eexists.
Qed.

Lemma binary_round_aux_pos (q : positive) (e : Z) (l : location) :
  emin f64_prec f64_emax < e →
  gt_zero (binary_round_aux f64_prec f64_emax false (Zpos q) e l) = true.
Proof.
  intros He. unfold binary_round_aux.
  destruct (shr_fexp_pos q e l He) as (q1 & r1 & s1 & e1 & -> & He1).
  simpl shr_m.
  destruct (round_nearest_even_pos q1
              (loc_of_shr_record (Build_shr_record (Zpos q1) r1 s1)))
    as (q2 & ->).
  destruct (shr_fexp_pos q2 e1 loc_Exact) as (q3 & r3 & s3 & e3 & -> & He3);
    [lia|].
  simpl. by destruct (e3 <=? f64_emax - f64_prec).
Qed.

Lemma float64_of_int_pos (n : Z) : 0 < n → gt_zero (float64_of_int n) = true.
Proof.
  destruct n as [|p|p]; [lia| |lia]. intros _.
  unfold float64_of_int, binary_normalize, binary_round.
  destruct (shl_align p 0 _) as [mz ez] eqn:Halign.
  apply binary_round_aux_pos.
  unfold shl_align in Halign.
  destruct (fexp f64_prec f64_emax (Zpos (digits2_pos p) + 0) - 0)
    as [|k|k] eqn:Hshift; injection Halign as <- <-;
    unfold fexp, emin, f64_prec, f64_emax in *; lia.
Qed.

(** ** The shape of the month loop *)

Section loops.
Context (div : float64 → float64 → float64) (range117 range129 : MapOrder).
Context (year : Z) (monthMap : gmap Z MonthlyRevenue.t).
Context (prevMap manualYoY actualYoY actualMoM : gmap Z float64).
Context (avgYoY avgMoM : float64).

Local Abbreviation step :=
  (monthStep div year monthMap prevMap manualYoY actualYoY actualMoM
     avgYoY avgMoM).
Local Abbreviation estimate :=
  (stepEstimate div year monthMap prevMap manualYoY actualYoY actualMoM
     avgYoY avgMoM).

Lemma monthStep_months (st : monthLoop) (m : Z) :
  months (step st m) = months st ++ [estimate (lastRevenue st) m].
Proof.
  unfold monthStep, stepEstimate. by destruct (monthMap !! m).
Qed.

Lemma stepEstimate_Month (last : float64) (m : Z) :
  MonthEstimate.Month (estimate last m) = m.
Proof.
  unfold stepEstimate. destruct (monthMap !! m); [done|].
  unfold missingEstimate.
  by destruct (gt_zero (default f64_zero (prevMap !! m))), (gt_zero last).
Qed.

Lemma months_fold_Month (ms : list Z) (st : monthLoop) :
  MonthEstimate.Month <$> months (fold_left step ms st)
  = (MonthEstimate.Month <$> months st) ++ ms.
Proof.
  revert st. induction ms as [|m ms IH]; intros st; simpl.
  - by rewrite app_nil_r.
  - rewrite IH, monthStep_months, fmap_app. simpl.
    by rewrite stepEstimate_Month, <- app_assoc.
Qed.

Lemma months_fold_prefix (ms : list Z) (st : monthLoop) (i : nat) :
  (i < length (months st))%nat →
  months (fold_left step ms st) !! i = months st !! i.
Proof.
  revert st. induction ms as [|m ms IH]; intros st Hi; simpl; [done|].
  rewrite IH.
  - rewrite monthStep_months. by apply lookup_app_l.
  - rewrite monthStep_months, length_app. simpl. lia.
Qed.

Lemma months_fold_length (ms : list Z) (st : monthLoop) :
  length (months (fold_left step ms st))
  = (length (months st) + length ms)%nat.
Proof.
  rewrite <- (length_fmap MonthEstimate.Month), months_fold_Month.
  by rewrite length_app, length_fmap.
Qed.

(** The estimate of the month [m] sits right after those of the months
    before it, and is computed from the state these left behind. *)
Lemma months_fold_lookup (ms1 ms2 : list Z) (m : Z) (st : monthLoop) :
  months (fold_left step (ms1 ++ m :: ms2) st)
    !! (length (months st) + length ms1)%nat
  = Some (estimate (lastRevenue (fold_left step ms1 st)) m).
Proof.
  rewrite fold_left_app. simpl.
  rewrite months_fold_prefix.
  - rewrite monthStep_months, <- months_fold_length.
    by rewrite list_lookup_middle.
  - rewrite monthStep_months, length_app, months_fold_length. simpl. lia.
Qed.
End loops.

(** ** The three outcomes of [BuildYearProjection] *)

Section outcomes.
Context (div : float64 → float64 → float64) (range117 range129 : MapOrder).
Context (year : Z) (grouped : gmap Z (list MonthlyRevenue.t)).
Context (manualYoY : gmap Z float64) (asm : Assumptions.t).

Local Abbreviation result :=
  (BuildYearProjectionWith div range117 range129 year grouped manualYoY asm).
Local Abbreviation projection :=
  (buildProjection div range117 range129 year (currentMonths year grouped)
     (priorYear year grouped) manualYoY asm).

Lemma build_missing_year :
  default [] (grouped !! year) = [] →
  result = (YearProjection.zero, Some (ErrMissingYear year)).
Proof.
  intros H. unfold BuildYearProjectionWith. by rewrite H.
Qed.

Lemma build_invalid_shares :
  default [] (grouped !! year) ≠ [] →
  le_zero (Assumptions.SharesOutstanding asm) = true →
  result = (YearProjection.zero, Some ErrSharesOutstanding).
Proof.
  intros Hne Hle. unfold BuildYearProjectionWith.
  rewrite bool_decide_eq_false_2.
  - by rewrite Hle.
  - intros H. by apply Hne, (sortSlice_nil_inv lessMonthlyRevenue).
Qed.

Lemma build_success :
  result.2 = None →
  default [] (grouped !! year) ≠ []
  ∧ le_zero (Assumptions.SharesOutstanding asm) = false
  ∧ result = (projection, None).
Proof.
  unfold BuildYearProjectionWith, SortMonthlyRevenues.
  case_bool_decide as Hcur; [done|].
  destruct (le_zero (Assumptions.SharesOutstanding asm)); [done|].
  intros _. split_and!; [|done..].
  intros H. apply Hcur. by rewrite H.
Qed.
End outcomes.

(** ** The months and the quarters of a projection *)

Section projection.
Context (div : float64 → float64 → float64) (range117 range129 : MapOrder).
Context (year : Z) (monthMap : gmap Z MonthlyRevenue.t).
Context (prevMap manualYoY : gmap Z float64) (asm : Assumptions.t).

Local Abbreviation projection :=
  (buildProjection div range117 range129 year monthMap prevMap manualYoY asm).
Local Abbreviation run :=
  (runMonths div range117 range129 year monthMap prevMap manualYoY).
Local Abbreviation yoys := (yoyRates div range117 monthMap prevMap).
Local Abbreviation moms := (momRates div range129 monthMap prevMap).

Lemma run_Month (ms : list Z) : MonthEstimate.Month <$> months (run ms) = ms.
Proof. unfold runMonths. by rewrite months_fold_Month. Qed.

(** The final [sort.Slice] finds the months in order already. *)
Lemma projection_Months :
  YearProjection.Months projection = months (run (seqZ 1 12)).
Proof.
  unfold buildProjection. simpl.
  pose proof (run_Month (seqZ 1 12)) as Hkeys.
  destruct (months (run (seqZ 1 12))) as [|y l]; [done|].
  apply (sortSlice_ascending _ MonthEstimate.Month); [done|].
  change (seqZ 1 12) with [1; 2; 3; 4; 5; 6; 7; 8; 9; 10; 11; 12] in Hkeys.
  injection Hkeys as Hy Hl. unfold fmap. by rewrite Hy, Hl.
Qed.

Lemma projection_Months_lookup (m : Z) :
  1 ≤ m ≤ 12 →
  YearProjection.Months projection !! Z.to_nat (m - 1)
  = Some (stepEstimate div year monthMap prevMap manualYoY
            (rateOf yoys) (rateOf moms) (average div yoys) (average div moms)
            (lastRevenue (run (seqZ 1 (m - 1)))) m).
Proof.
  intros Hm. rewrite projection_Months.
  replace (seqZ 1 12) with (seqZ 1 (m - 1) ++ m :: seqZ (m + 1) (12 - m)).
  - unfold runMonths.
    replace (Z.to_nat (m - 1))
      with (length (months (mkMonthLoop [] f64_zero f64_zero))
            + length (seqZ 1 (m - 1)))%nat
      by (rewrite length_seqZ; simpl; lia).
    apply months_fold_lookup.
  - replace 12 with ((m - 1) + (12 - m + 1)) at 2 by lia.
    rewrite seqZ_app by lia.
    rewrite (seqZ_cons (1 + (m - 1))) by lia.
    do 3 f_equal; lia.
Qed.

Lemma discloseQuarter_Quarter (q : Z) (quarter : QuarterBreakdown.t) :
  QuarterBreakdown.Quarter (discloseQuarter div asm q quarter)
  = QuarterBreakdown.Quarter quarter.
Proof.
  unfold discloseQuarter.
  destruct (Assumptions.ActualQuarters asm) as [aq|]; [|done].
  destruct (aq !! q) as [a|]; [|done].
  by destruct (gt_zero (QuarterActual.NetIncome a)).
Qed.

Lemma buildQuarter_Quarter (ms : list MonthEstimate.t) (q : Z) :
  QuarterBreakdown.Quarter (buildQuarter div ms asm q) = q.
Proof.
  unfold buildQuarter.
  destruct (fold_left _ _ _) as [revenueSum allActual].
  by rewrite discloseQuarter_Quarter.
Qed.

Lemma projection_Quarters :
  YearProjection.Quarters projection
  = buildQuarter div (YearProjection.Months projection) asm <$> [1; 2; 3; 4].
Proof. reflexivity. Qed.
End projection.

Lemma buildQuarter_disclosed
    (div : float64 → float64 → float64) (ms : list MonthEstimate.t)
    (asm : Assumptions.t) (q : Z)
    (actualQuarters : gmap Z QuarterActual.t) (actual : QuarterActual.t) :
  Assumptions.ActualQuarters asm = Some actualQuarters →
  actualQuarters !! q = Some actual →
  gt_zero (QuarterActual.NetIncome actual) = true →
  let quarter := buildQuarter div ms asm q in
  QuarterBreakdown.NetIncome quarter = QuarterActual.NetIncome actual
  ∧ QuarterBreakdown.EPS quarter
    = (if gt_zero (QuarterActual.EPS actual)
       then QuarterActual.EPS actual
       else div (QuarterActual.NetIncome actual)
              (Assumptions.SharesOutstanding asm))
  ∧ QuarterBreakdown.IsActual quarter = true.
Proof.
  intros Hmap Hq Hnet. unfold buildQuarter.
  destruct (fold_left _ _ _) as [revenueSum allActual].
  unfold discloseQuarter. by rewrite Hmap, Hq, Hnet.
Qed.

(** ** The tables of the reported months *)

Section monthMap.
Context (year : Z).

Lemma buildMonthMap_fold_Some (l : list MonthlyRevenue.t)
    (acc : gmap Z MonthlyRevenue.t) (m : Z) (rec : MonthlyRevenue.t) :
  fold_left
    (λ monthMap rec,
       if MonthlyRevenue.Year rec =? year
       then <[MonthlyRevenue.Month rec := rec]> monthMap
       else monthMap) l acc !! m = Some rec →
  (rec ∈ l ∧ MonthlyRevenue.Year rec = year ∧ MonthlyRevenue.Month rec = m)
  ∨ acc !! m = Some rec.
Proof.
  revert acc. induction l as [|x l IH]; intros acc; simpl; [by right|].
  intros [(Hin & Hy & Hm)|Hacc]%IH.
  - left. split_and!; [by right|done..].
  - destruct (Z.eqb_spec (MonthlyRevenue.Year x) year) as [Hx|Hx];
      [|by right].
    destruct (decide (MonthlyRevenue.Month x = m)) as [Hxm|Hxm].
    + subst m. rewrite lookup_insert_eq in Hacc.
      injection Hacc as ->. left. split_and!; [by left|done..].
    + rewrite lookup_insert_ne in Hacc by done. by right.
Qed.

Lemma buildMonthMap_fold_is_Some (l : list MonthlyRevenue.t)
    (acc : gmap Z MonthlyRevenue.t) (m : Z) :
  is_Some (acc !! m)
  ∨ (∃ rec, rec ∈ l ∧ MonthlyRevenue.Year rec = year
            ∧ MonthlyRevenue.Month rec = m) →
  is_Some
    (fold_left
       (λ monthMap rec,
          if MonthlyRevenue.Year rec =? year
          then <[MonthlyRevenue.Month rec := rec]> monthMap
          else monthMap) l acc !! m).
Proof.
  revert acc. induction l as [|x l IH]; intros acc; simpl.
  - intros [H|(rec & Hin & _)]; [done|]. by apply elem_of_nil in Hin.
  - intros H. apply IH.
    destruct H as [Hacc|(rec & Hin & Hy & Hm)].
    + left. destruct (MonthlyRevenue.Year x =? year); [|done].
      rewrite lookup_insert. case_decide; [by eexists|done].
    + apply elem_of_cons in Hin as [->|Hin].
      * left. rewrite Hy, Z.eqb_refl, Hm. rewrite lookup_insert_eq.
        by eexists.
      * right. by exists rec.
Qed.

Lemma buildMonthMap_Some (l : list MonthlyRevenue.t) (m : Z)
    (rec : MonthlyRevenue.t) :
  buildMonthMap year l !! m = Some rec →
  rec ∈ l ∧ MonthlyRevenue.Year rec = year ∧ MonthlyRevenue.Month rec = m.
Proof.
  intros [H|H]%buildMonthMap_fold_Some; [done|].
  by rewrite lookup_empty in H.
Qed.

Lemma buildMonthMap_is_Some (l : list MonthlyRevenue.t) (m : Z) :
  is_Some (buildMonthMap year l !! m)
  ↔ ∃ rec, rec ∈ l ∧ MonthlyRevenue.Year rec = year
           ∧ MonthlyRevenue.Month rec = m.
Proof.
  split.
  - intros [rec H]. exists rec. by apply buildMonthMap_Some.
  - intros H. apply buildMonthMap_fold_is_Some. by right.
Qed.

Context (grouped : gmap Z (list MonthlyRevenue.t)).

Lemma currentMonths_Some (m : Z) (rec : MonthlyRevenue.t) :
  currentMonths year grouped !! m = Some rec →
  rec ∈ default [] (grouped !! year)
  ∧ MonthlyRevenue.Year rec = year ∧ MonthlyRevenue.Month rec = m.
Proof.
  intros (Hin & Hy & Hm)%buildMonthMap_Some. split_and!; [|done..].
  by apply (elem_of_sortSlice lessMonthlyRevenue).
Qed.

Lemma currentMonths_reported (m : Z) :
  is_Some (currentMonths year grouped !! m) ↔ reported year grouped m.
Proof.
  unfold currentMonths, reported. rewrite buildMonthMap_is_Some.
  apply exist_proper. intros rec.
  by rewrite (elem_of_sortSlice lessMonthlyRevenue).
Qed.

Lemma currentMonths_missing (m : Z) :
  ¬ reported year grouped m → currentMonths year grouped !! m = None.
Proof.
  rewrite <- currentMonths_reported, eq_None_not_Some. done.
Qed.

(** With at most one record for the month, the table holds that record. *)
Lemma currentMonths_unique (rec : MonthlyRevenue.t) :
  rec ∈ default [] (grouped !! year) →
  MonthlyRevenue.Year rec = year →
  (∀ rec', rec' ∈ default [] (grouped !! year) →
           MonthlyRevenue.Year rec' = year →
           MonthlyRevenue.Month rec' = MonthlyRevenue.Month rec →
           rec' = rec) →
  currentMonths year grouped !! MonthlyRevenue.Month rec = Some rec.
Proof.
  intros Hin Hy Huniq.
  destruct (currentMonths year grouped !! MonthlyRevenue.Month rec)
    as [rec'|] eqn:Hlookup.
  - apply currentMonths_Some in Hlookup as (Hin' & Hy' & Hm').
    f_equal. by apply Huniq.
  - exfalso. apply eq_None_not_Some in Hlookup. apply Hlookup.
    apply currentMonths_reported. by exists rec.
Qed.
End monthMap.

Lemma not_reported_lookup (year : Z) (grouped : gmap Z (list MonthlyRevenue.t))
    (m : Z) :
  currentMonths year grouped !! m = None → ¬ reported year grouped m.
Proof.
  intros Hnone Hrep%currentMonths_reported.
  rewrite Hnone in Hrep. by destruct Hrep.
Qed.

Lemma buildPrevMap_Some (l : list MonthlyRevenue.t) (k : Z) (v : float64) :
  buildPrevMap l !! k = Some v →
  ∃ rec, rec ∈ l ∧ MonthlyRevenue.Revenue rec = v.
Proof.
  unfold buildPrevMap.
  assert (∀ acc : gmap Z float64,
            fold_left
              (λ prevMap rec,
                 <[MonthlyRevenue.Month rec := MonthlyRevenue.Revenue rec]>
                   prevMap) l acc !! k = Some v →
            (∃ rec, rec ∈ l ∧ MonthlyRevenue.Revenue rec = v)
            ∨ acc !! k = Some v) as Hfold.
  { induction l as [|x l IH]; intros acc; simpl; [by right|].
    intros [(rec & Hin & Hv)|Hacc]%IH.
    - left. exists rec. split; [by right|done].
    - destruct (decide (MonthlyRevenue.Month x = k)) as [<-|Hne].
      + rewrite lookup_insert_eq in Hacc. injection Hacc as <-.
        left. exists x. split; [by left|done].
      + rewrite lookup_insert_ne in Hacc by done. by right. }
  intros [H|H]%Hfold; [done|]. by rewrite lookup_empty in H.
Qed.

(** ** Missing months and the running last-known revenue *)

Section missing.
Context (range117 range129 : MapOrder) (year : Z).
Context (grouped : gmap Z (list MonthlyRevenue.t)).
Context (manualYoY : gmap Z float64) (asm : Assumptions.t).

Local Abbreviation result :=
  (BuildYearProjection range117 range129 year grouped manualYoY asm).

(** The estimate of a missing month, in the terms of the projection. *)
Lemma missing_month_estimate (m : Z) :
  result.2 = None →
  1 ≤ m ≤ 12 →
  ¬ reported year grouped m →
  YearProjection.Months result.1 !! Z.to_nat (m - 1)
  = Some (missingEstimate f64_div year (priorYear year grouped) manualYoY
            (YearProjection.AvgYoY result.1) (YearProjection.AvgMoM result.1)
            (lastRevenue (stateBefore range117 range129 year grouped manualYoY m))
            m).
Proof.
  intros Hok Hm Hmissing. unfold BuildYearProjection in *.
  apply build_success in Hok as (_ & _ & ->). cbn [fst].
  rewrite projection_Months_lookup by done.
  unfold stepEstimate. by rewrite currentMonths_missing.
Qed.

(** The estimate of a reported month. *)
Lemma actual_month_estimate (m : Z) (rec : MonthlyRevenue.t) :
  result.2 = None →
  1 ≤ m ≤ 12 →
  currentMonths year grouped !! m = Some rec →
  ∃ actualYoY actualMoM,
    YearProjection.Months result.1 !! Z.to_nat (m - 1)
    = Some (actualEstimate f64_div year (currentMonths year grouped)
              (priorYear year grouped) actualYoY actualMoM
              (lastRevenue
                 (stateBefore range117 range129 year grouped manualYoY m))
              m rec).
Proof.
  intros Hok Hm Hrec. unfold BuildYearProjection in *.
  apply build_success in Hok as (_ & _ & ->). cbn [fst].
  rewrite projection_Months_lookup by done.
  unfold stepEstimate. rewrite Hrec. by do 2 eexists.
Qed.

(** How the running last-known revenue moves across the month [m]. *)
Lemma stateBefore_succ (m : Z) :
  1 ≤ m →
  stateBefore range117 range129 year grouped manualYoY (m + 1)
  = monthStep f64_div year (currentMonths year grouped)
      (priorYear year grouped) manualYoY
      (rateOf (yoyRates f64_div range117 (currentMonths year grouped)
                 (priorYear year grouped)))
      (rateOf (momRates f64_div range129 (currentMonths year grouped)
                 (priorYear year grouped)))
      (average f64_div
         (yoyRates f64_div range117 (currentMonths year grouped)
            (priorYear year grouped)))
      (average f64_div
         (momRates f64_div range129 (currentMonths year grouped)
            (priorYear year grouped)))
      (stateBefore range117 range129 year grouped manualYoY m) m.
Proof.
  intros Hm. unfold stateBefore, runMonths.
  replace (m + 1 - 1) with ((m - 1) + 1) by lia.
  rewrite seqZ_app by lia. rewrite fold_left_app.
  replace (1 + (m - 1)) with m by lia. done.
Qed.
End missing.

(** A missing month with neither anchor above 0. *)
Lemma missing_month_unanchored
    (range117 range129 : MapOrder) (year : Z)
    (grouped : gmap Z (list MonthlyRevenue.t)) (manualYoY : gmap Z float64)
    (asm : Assumptions.t) (m : Z) :
  let result := BuildYearProjection range117 range129 year grouped manualYoY asm in
  let previousYearRevenue := default f64_zero (priorYear year grouped !! m) in
  let previousMonthRevenue :=
    lastRevenue (stateBefore range117 range129 year grouped manualYoY m) in
  let yoy := default (YearProjection.AvgYoY result.1) (manualYoY !! m) in
  result.2 = None →
  1 ≤ m ≤ 12 →
  ¬ reported year grouped m →
  gt_zero previousYearRevenue = false →
  gt_zero previousMonthRevenue = false →
  ∃ estimate,
    YearProjection.Months result.1 !! Z.to_nat (m - 1) = Some estimate
    ∧ MonthEstimate.PreviousMonthRevenue estimate = previousMonthRevenue
    ∧ MonthEstimate.HasReference estimate = false
    ∧ MonthEstimate.Revenue estimate
      = (previousYearRevenue * (f64_one + yoy))%f64.
Proof.
  intros result previousYearRevenue previousMonthRevenue yoy Hok Hm Hmissing
    Hyear Hmonth.
  eexists. split; [by apply missing_month_estimate|].
  fold result previousYearRevenue previousMonthRevenue.
  unfold missingEstimate. fold previousYearRevenue.
  rewrite Hyear, Hmonth. subst yoy. by destruct (manualYoY !! m).
Qed.

Section running.
Context (range117 range129 : MapOrder) (year : Z).
Context (grouped : gmap Z (list MonthlyRevenue.t)).
Context (manualYoY : gmap Z float64) (asm : Assumptions.t).

Local Abbreviation result :=
  (BuildYearProjection range117 range129 year grouped manualYoY asm).

Lemma result_averages :
  result.2 = None →
  YearProjection.AvgYoY result.1
  = average f64_div
      (yoyRates f64_div range117 (currentMonths year grouped)
         (priorYear year grouped))
  ∧ YearProjection.AvgMoM result.1
    = average f64_div
        (momRates f64_div range129 (currentMonths year grouped)
           (priorYear year grouped)).
Proof.
  intros Hok. unfold BuildYearProjection in *.
  by apply build_success in Hok as (_ & _ & ->).
Qed.

Lemma lastRevenue_after_actual (m : Z) (rec : MonthlyRevenue.t) :
  1 ≤ m →
  currentMonths year grouped !! m = Some rec →
  lastRevenue (stateBefore range117 range129 year grouped manualYoY (m + 1))
  = MonthlyRevenue.Revenue rec.
Proof.
  intros Hm Hrec. rewrite stateBefore_succ by done.
  unfold monthStep. by rewrite Hrec.
Qed.

Lemma lastRevenue_after_missing (m : Z) :
  result.2 = None →
  1 ≤ m →
  ¬ reported year grouped m →
  let estimate :=
    missingEstimate f64_div year (priorYear year grouped) manualYoY
      (YearProjection.AvgYoY result.1) (YearProjection.AvgMoM result.1)
      (lastRevenue (stateBefore range117 range129 year grouped manualYoY m))
      m in
  lastRevenue (stateBefore range117 range129 year grouped manualYoY (m + 1))
  = if gt_zero (MonthEstimate.Revenue estimate)
    then MonthEstimate.Revenue estimate
    else lastRevenue (stateBefore range117 range129 year grouped manualYoY m).
Proof.
  intros Hok Hm Hmissing. rewrite stateBefore_succ by done.
  destruct (result_averages Hok) as [-> ->].
  unfold monthStep. by rewrite currentMonths_missing.
Qed.
End running.

(** ** Divisions and their guards *)

Lemma fold_left_agree {A B : Type} (f g : A → B → A) (l : list B) (a : A) :
  (∀ a b, f a b = g a b) → fold_left f l a = fold_left g l a.
Proof.
  intros Hfg. revert a. induction l as [|b l IH]; intros a; simpl; [done|].
  by rewrite Hfg, IH.
Qed.

Section guarded.
(** Two divisions that agree on the divisors accepted by [ok]; [ok] accepts
    every divisor above 0, and every divisor that is not [<= 0] among the
    [input] values, the revenues and the share count. *)
Context (div1 div2 : float64 → float64 → float64).
Context (ok : float64 → bool) (input : float64 → Prop).
Context (Hagree : ∀ x d, ok d = true → div1 x d = div2 x d).
Context (Hgt : ∀ d, gt_zero d = true → ok d = true).
Context (Hle : ∀ d, input d → le_zero d = false → ok d = true).

Lemma agree_gt_zero (x d : float64) :
  gt_zero d = true → div1 x d = div2 x d.
Proof. intros H. by apply Hagree, Hgt. Qed.

Lemma agree_not_le_zero (x d : float64) :
  input d ∨ d = f64_zero → le_zero d = false → div1 x d = div2 x d.
Proof.
  intros [Hinput| ->] Hguard; [|done]. by apply Hagree, Hle.
Qed.

Lemma yoyStep_agree (prevMap : gmap Z float64) (acc : rates)
    (entry : Z * MonthlyRevenue.t) :
  (∀ k v, prevMap !! k = Some v → input v) →
  yoyStep div1 prevMap acc entry = yoyStep div2 prevMap acc entry.
Proof.
  intros Hprev. destruct entry as [month rec]. unfold yoyStep.
  destruct (le_zero (default f64_zero (prevMap !! month))) eqn:Hguard;
    [done|].
  rewrite agree_not_le_zero; [done| |done].
  destruct (prevMap !! month) as [v|] eqn:Hv; [left; by eapply Hprev|by right].
Qed.

Lemma momStep_agree (monthMap : gmap Z MonthlyRevenue.t)
    (prevMap : gmap Z float64) (acc : rates) (month : Z) :
  (∀ k rec, monthMap !! k = Some rec → input (MonthlyRevenue.Revenue rec)) →
  (∀ k v, prevMap !! k = Some v → input v) →
  momStep div1 monthMap prevMap acc month
  = momStep div2 monthMap prevMap acc month.
Proof.
  intros Hcur Hprev. unfold momStep.
  destruct (le_zero _) eqn:Hguard; [done|].
  rewrite agree_not_le_zero; [done| |done].
  destruct (monthMap !! previousMonth month) as [prevRec|] eqn:HprevRec;
    [destruct (_ =? _); [left; by eapply Hcur|]|];
    (destruct (_ =? _); [|by right]);
    (destruct (prevMap !! previousMonth month) as [v|] eqn:Hv;
       [left; by eapply Hprev|by right]).
Qed.

Lemma average_agree (acc : rates) : average div1 acc = average div2 acc.
Proof.
  unfold average. destruct (Z.ltb_spec 0 (rateCount acc)); [|done].
  by apply agree_gt_zero, float64_of_int_pos.
Qed.

Lemma actualEstimate_agree (year : Z) (monthMap : gmap Z MonthlyRevenue.t)
    (prevMap actualYoY actualMoM : gmap Z float64) (last : float64) (m : Z)
    (rec : MonthlyRevenue.t) :
  actualEstimate div1 year monthMap prevMap actualYoY actualMoM last m rec
  = actualEstimate div2 year monthMap prevMap actualYoY actualMoM last m rec.
Proof.
  unfold actualEstimate.
  destruct (actualMoM !! m); [done|].
  destruct (gt_zero _) eqn:Hguard; [|done].
  by rewrite agree_gt_zero.
Qed.

Lemma missingEstimate_agree (year : Z) (prevMap manualYoY : gmap Z float64)
    (avgYoY avgMoM last : float64) (m : Z) :
  missingEstimate div1 year prevMap manualYoY avgYoY avgMoM last m
  = missingEstimate div2 year prevMap manualYoY avgYoY avgMoM last m.
Proof.
  unfold missingEstimate, chooseReferenceRevenue.
  destruct (gt_zero (default f64_zero (prevMap !! m)));
    destruct (gt_zero last) eqn:Hguard; simpl; try done;
    by rewrite ?(agree_gt_zero _ last), ?(agree_gt_zero _ f64_two).
Qed.

Lemma monthStep_agree (year : Z) (monthMap : gmap Z MonthlyRevenue.t)
    (prevMap manualYoY actualYoY actualMoM : gmap Z float64)
    (avgYoY avgMoM : float64) (st : monthLoop) (m : Z) :
  monthStep div1 year monthMap prevMap manualYoY actualYoY actualMoM
    avgYoY avgMoM st m
  = monthStep div2 year monthMap prevMap manualYoY actualYoY actualMoM
      avgYoY avgMoM st m.
Proof.
  unfold monthStep, actualMonth, missingMonth.
  destruct (monthMap !! m).
  - by rewrite actualEstimate_agree.
  - by rewrite missingEstimate_agree.
Qed.

Context (range117 range129 : MapOrder).
Context (monthMap : gmap Z MonthlyRevenue.t) (prevMap : gmap Z float64).
Context (Hcur : ∀ k rec, monthMap !! k = Some rec →
                         input (MonthlyRevenue.Revenue rec)).
Context (Hprev : ∀ k v, prevMap !! k = Some v → input v).

Lemma yoyRates_agree :
  yoyRates div1 range117 monthMap prevMap
  = yoyRates div2 range117 monthMap prevMap.
Proof. apply fold_left_agree. intros acc entry. by apply yoyStep_agree. Qed.

Lemma momRates_agree :
  momRates div1 range129 monthMap prevMap
  = momRates div2 range129 monthMap prevMap.
Proof. apply fold_left_agree. intros acc month. by apply momStep_agree. Qed.

Lemma runMonths_agree (year : Z) (manualYoY : gmap Z float64) (ms : list Z) :
  runMonths div1 range117 range129 year monthMap prevMap manualYoY ms
  = runMonths div2 range117 range129 year monthMap prevMap manualYoY ms.
Proof.
  unfold runMonths.
  rewrite yoyRates_agree, momRates_agree, !average_agree.
  apply fold_left_agree. intros st m. apply monthStep_agree.
Qed.

Lemma buildQuarter_agree (ms : list MonthEstimate.t) (asm : Assumptions.t)
    (q : Z) :
  input (Assumptions.SharesOutstanding asm) →
  le_zero (Assumptions.SharesOutstanding asm) = false →
  buildQuarter div1 ms asm q = buildQuarter div2 ms asm q.
Proof.
  intros Hinput Hshares. unfold buildQuarter, discloseQuarter.
  destruct (fold_left _ _ _) as [revenueSum allActual].
  rewrite (Hagree _ (Assumptions.SharesOutstanding asm)) by by apply Hle.
  destruct (Assumptions.ActualQuarters asm) as [actualQuarters|]; [|done].
  destruct (actualQuarters !! q) as [actual|]; [|done].
  by rewrite (Hagree _ (Assumptions.SharesOutstanding asm)) by by apply Hle.
Qed.

Lemma buildProjection_agree (year : Z) (manualYoY : gmap Z float64)
    (asm : Assumptions.t) :
  input (Assumptions.SharesOutstanding asm) →
  le_zero (Assumptions.SharesOutstanding asm) = false →
  buildProjection div1 range117 range129 year monthMap prevMap manualYoY asm
  = buildProjection div2 range117 range129 year monthMap prevMap manualYoY asm.
Proof.
  intros Hinput Hshares. unfold buildProjection.
  rewrite yoyRates_agree, momRates_agree, !average_agree, runMonths_agree.
  set (ms := sortSlice lessMonthEstimate _).
  rewrite (fold_left_agree (quarterStep div1 ms asm) (quarterStep div2 ms asm)).
  - destruct (gt_zero (Assumptions.CurrentPrice asm)) eqn:Hprice; [|done].
    by rewrite agree_gt_zero.
  - intros st q. unfold quarterStep. by rewrite buildQuarter_agree.
Qed.
End guarded.

(** The general form of C9: [ok] accepts the divisors above 0, and the
    revenues and share count that are not [<= 0]. *)
Lemma BuildYearProjectionWith_agree
    (div1 div2 : float64 → float64 → float64)
    (ok : float64 → bool) (input : float64 → Prop)
    (range117 range129 : MapOrder) (year : Z)
    (grouped : gmap Z (list MonthlyRevenue.t)) (manualYoY : gmap Z float64)
    (asm : Assumptions.t) :
  (∀ x d, ok d = true → div1 x d = div2 x d) →
  (∀ d, gt_zero d = true → ok d = true) →
  (∀ d, input d → le_zero d = false → ok d = true) →
  (∀ y rec, rec ∈ default [] (grouped !! y) →
            input (MonthlyRevenue.Revenue rec)) →
  input (Assumptions.SharesOutstanding asm) →
  BuildYearProjectionWith div1 range117 range129 year grouped manualYoY asm
  = BuildYearProjectionWith div2 range117 range129 year grouped manualYoY asm.
Proof.
  intros Hagree Hgt Hle Hrecords Hshares.
  unfold BuildYearProjectionWith.
  case_bool_decide; [done|].
  destruct (le_zero (Assumptions.SharesOutstanding asm)) eqn:Hguard; [done|].
  rewrite (buildProjection_agree div1 div2 ok input); try done.
  - intros k rec (Hin & _ & _)%currentMonths_Some. by eapply Hrecords.
  - intros k v (rec & Hin%elem_of_sortSlice & <-)%buildPrevMap_Some.
    by eapply Hrecords.
Qed.

(** When no revenue and no share count is a NaN, every divisor reached is
    above 0. *)
Lemma divisors_are_positive
    (div1 div2 : float64 → float64 → float64)
    (range117 range129 : MapOrder) (year : Z)
    (grouped : gmap Z (list MonthlyRevenue.t)) (manualYoY : gmap Z float64)
    (asm : Assumptions.t) :
  (∀ y rec, rec ∈ default [] (grouped !! y) →
            is_nan (MonthlyRevenue.Revenue rec) = false) →
  is_nan (Assumptions.SharesOutstanding asm) = false →
  (∀ x d, gt_zero d = true → div1 x d = div2 x d) →
  BuildYearProjectionWith div1 range117 range129 year grouped manualYoY asm
  = BuildYearProjectionWith div2 range117 range129 year grouped manualYoY asm.
Proof.
  intros Hrecords Hshares Hagree.
  apply (BuildYearProjectionWith_agree div1 div2 gt_zero
           (λ d, is_nan d = false)); try done.
  intros d Hnan [Hgt|Hnan']%le_zero_false; [done|congruence].
Qed.

(** ** The orders of the two [range] statements *)

Lemma ascendingOrder_valid : ValidOrder ascendingOrder.
Proof. intros m. apply sortSlice_perm. Qed.

Lemma rotate_valid (range : MapOrder) : ValidOrder range → ValidOrder (rotate range).
Proof.
  intros Hvalid m. unfold rotate. rewrite <- (Hvalid m).
  destruct (range m) as [|entry entries]; [done|].
  by rewrite <- Permutation_cons_append.
Qed.

Lemma sortedMonths_order (range129 range129' : MapOrder)
    (monthMap : gmap Z MonthlyRevenue.t) :
  ValidOrder range129 → ValidOrder range129' →
  sortedMonths range129 monthMap = sortedMonths range129' monthMap.
Proof.
  intros Hvalid Hvalid'. apply sortSlice_Z_perm.
  by rewrite (Hvalid monthMap), (Hvalid' monthMap).
Qed.

Lemma elem_of_sortedMonths (range129 : MapOrder)
    (monthMap : gmap Z MonthlyRevenue.t) (m : Z) :
  ValidOrder range129 →
  m ∈ sortedMonths range129 monthMap ↔ is_Some (monthMap !! m).
Proof.
  intros Hvalid. unfold sortedMonths.
  rewrite elem_of_sortSlice, (Hvalid monthMap), list_elem_of_fmap.
  split.
  - intros ([k rec] & -> & Hin%elem_of_map_to_list). by eexists.
  - intros [rec Hrec]. exists (m, rec). split; [done|].
    by apply elem_of_map_to_list.
Qed.

(** The projection depends on the runtime's enumerations only through that
    of line 117. *)
Lemma BuildYearProjection_range129
    (range117 range129 range129' : MapOrder) (year : Z)
    (grouped : gmap Z (list MonthlyRevenue.t)) (manualYoY : gmap Z float64)
    (asm : Assumptions.t) :
  ValidOrder range129 → ValidOrder range129' →
  BuildYearProjection range117 range129 year grouped manualYoY asm
  = BuildYearProjection range117 range129' year grouped manualYoY asm.
Proof.
  intros Hvalid Hvalid'.
  unfold BuildYearProjection, BuildYearProjectionWith, buildProjection,
    runMonths, momRates.
  by rewrite (sortedMonths_order range129 range129').
Qed.

(** ** The month-over-month points *)

Section points.
Context (div : float64 → float64 → float64) (range129 : MapOrder).
Context (monthMap : gmap Z MonthlyRevenue.t) (prevMap : gmap Z float64).

Local Abbreviation pointAnchor := (pointAnchor monthMap prevMap).

Lemma momStep_lookup (acc : rates) (month m : Z) :
  rateOf (momStep div monthMap prevMap acc month) !! m
  = if decide (month = m) then
      if le_zero (pointAnchor m) then rateOf acc !! m
      else Some (div ((MonthlyRevenue.Revenue
                         (default MonthlyRevenue.zero (monthMap !! m))
                       - pointAnchor m)%f64) (pointAnchor m))
    else rateOf acc !! m.
Proof.
  unfold momStep.
  change (match monthMap !! previousMonth month with
          | Some prevRec =>
              if MonthlyRevenue.Year prevRec
                 =? MonthlyRevenue.Year
                      (default MonthlyRevenue.zero (monthMap !! month))
              then MonthlyRevenue.Revenue prevRec
              else if previousMonth month =? December
                   then match prevMap !! previousMonth month with
                        | Some prev => prev
                        | None => f64_zero
                        end
                   else f64_zero
          | None => if previousMonth month =? December
                    then match prevMap !! previousMonth month with
                         | Some prev => prev
                         | None => f64_zero
                         end
                    else f64_zero
          end) with (pointAnchor month).
  case_decide as Hm.
  - subst m. destruct (le_zero (pointAnchor month)); [done|].
    simpl. by rewrite lookup_insert_eq.
  - destruct (le_zero (pointAnchor month)); [done|].
    simpl. by rewrite lookup_insert_ne.
Qed.

Lemma momStep_fold_lookup (l : list Z) (acc : rates) (m : Z) :
  rateOf (fold_left (momStep div monthMap prevMap) l acc) !! m
  = if decide (m ∈ l) then
      if le_zero (pointAnchor m) then rateOf acc !! m
      else Some (div ((MonthlyRevenue.Revenue
                         (default MonthlyRevenue.zero (monthMap !! m))
                       - pointAnchor m)%f64) (pointAnchor m))
    else rateOf acc !! m.
Proof.
  revert acc. induction l as [|month l IH]; intros acc; cbn [fold_left].
  - by rewrite decide_False by apply not_elem_of_nil.
  - rewrite IH, momStep_lookup.
    destruct (decide (month = m)) as [->|Hne].
    + rewrite (decide_True (P := m ∈ m :: l)) by (apply elem_of_cons; auto).
      destruct (decide (m ∈ l)); by destruct (le_zero (pointAnchor m)).
    + destruct (decide (m ∈ l)) as [Hin|Hnin].
      * by rewrite decide_True by (apply elem_of_cons; auto).
      * rewrite decide_False; [done|].
        intros [?|?]%elem_of_cons; congruence.
Qed.

(** The point recorded for a month: none for a month without record or
    whose anchor is [<= 0], the relative change against the anchor
    otherwise. *)
Lemma momRates_lookup (m : Z) :
  ValidOrder range129 →
  rateOf (momRates div range129 monthMap prevMap) !! m
  = match monthMap !! m with
    | None => None
    | Some rec =>
        if le_zero (pointAnchor m) then None
        else Some (div (MonthlyRevenue.Revenue rec - pointAnchor m)%f64
                     (pointAnchor m))
    end.
Proof.
  intros Hvalid. unfold momRates. rewrite momStep_fold_lookup.
  destruct (monthMap !! m) as [rec|] eqn:Hrec.
  - rewrite decide_True by (apply elem_of_sortedMonths; [done|by eexists]).
    by destruct (le_zero (pointAnchor m)).
  - rewrite decide_False; [done|].
    intros [rec Hin]%elem_of_sortedMonths; [|done]. congruence.
Qed.
End points.

(** Where the points are computed as C5 says: for February to December, and
    for January as long as December of the target year is not reported. *)
Lemma pointAnchor_as_claimed (year : Z)
    (grouped : gmap Z (list MonthlyRevenue.t)) (m : Z) :
  1 ≤ m ≤ 12 →
  reported year grouped m →
  (m = 1 → ¬ reported year grouped 12) →
  pointAnchor (currentMonths year grouped) (priorYear year grouped) m
  = default f64_zero (precedingRevenueOfClaim year grouped m).
Proof.
  intros Hm [rec Hrec]%currentMonths_reported Hdecember.
  unfold pointAnchor, previousYearMonthRevenue, precedingRevenueOfClaim,
    previousMonth. cbn [MonthlyRevenue.Month MonthlyRevenue.Year].
  rewrite Hrec. cbn [default].
  apply currentMonths_Some in Hrec as (_ & Hyear & _).
  destruct (Z.eqb_spec m January) as [->|Hjanuary].
  - rewrite currentMonths_missing by (by apply Hdecember).
    cbn. by destruct (priorYear year grouped !! December).
  - assert (wrap64 (m - 1) = m - 1) as ->
      by (unfold wrap64, January in *; rewrite Z.mod_small; lia).
    destruct (currentMonths year grouped !! (m - 1)) as [prevRec|] eqn:Hprev.
    + apply currentMonths_Some in Hprev as (_ & Hprevyear & _).
      unfold id. by rewrite Hprevyear, Hyear, Z.eqb_refl.
    + replace (m - 1 =? December) with false
        by (unfold December; lia). done.
Qed.

(** ** Claims *)

(** C1 fails on the code.  The loop of line 117 adds the year-over-year
    rates in the order in which the runtime enumerates [monthMap], and the
    addition of float64 is not associative: with the rates 0.1, 0.2 and 0.3,
    the enumerations January, February, March and February, March, January
    of the same map give two different [AvgYoY], hence two different
    projections for identical inputs. *)
Theorem C1_range_order_changes_projection :
  let monthMap := currentMonths 2024 roundingGrouped in
  let first :=
    BuildYearProjection ascendingOrder ascendingOrder 2024 roundingGrouped ∅
      (sharesOnly f64_one) in
  let second :=
    BuildYearProjection (rotate ascendingOrder) ascendingOrder 2024
      roundingGrouped ∅ (sharesOnly f64_one) in
  ValidOrder ascendingOrder
  ∧ ValidOrder (rotate ascendingOrder)
  ∧ (ascendingOrder monthMap).*1 = [1; 2; 3]
  ∧ (rotate ascendingOrder monthMap).*1 = [2; 3; 1]
  ∧ first.2 = None
  ∧ second.2 = None
  ∧ YearProjection.AvgYoY first.1 = S754_finite false 7205759403792795 (-55)
  ∧ YearProjection.AvgYoY second.1 = S754_finite false 7205759403792793 (-55)
  ∧ first ≠ second.
Proof.
  split_and!;
    [apply ascendingOrder_valid | apply rotate_valid, ascendingOrder_valid
    | vm_compute; reflexivity.. | ].
  intros Heq. apply (f_equal (λ r, YearProjection.AvgYoY r.1)) in Heq.
  vm_compute in Heq. discriminate Heq.
Qed.

(** C2 as stated fails in its last case: a missing month whose prior-year
    revenue is -5 and whose running revenue is 0 gets the revenue -5. *)
Lemma C2_counterexample :
  let result :=
    BuildYearProjection forwards forwards 2024 negativePriorGrouped ∅
      (sharesOnly f64_one) in
  result.2 = None
  ∧ ¬ reported 2024 negativePriorGrouped 2
  ∧ gt_zero (default f64_zero (priorYear 2024 negativePriorGrouped !! 2)) = false
  ∧ gt_zero (lastRevenue
               (stateBefore forwards forwards 2024 negativePriorGrouped ∅ 2))
    = false
  ∧ MonthEstimate.Revenue <$> YearProjection.Months result.1 !! 1%nat
    = Some (float64_of_int (-5))
  ∧ is_zero (float64_of_int (-5)) = false.
Proof.
  split_and!; [vm_compute; reflexivity | | vm_compute; reflexivity..].
  apply not_reported_lookup. vm_compute. reflexivity.
Qed.

(** The last case of the selection rule with revenues that are all
    non-negative: the average rate overflows to +infinity, and the revenue of
    March, 0 * (1 + infinity), is a NaN. *)
Example missing_month_revenue_nan :
  let result :=
    BuildYearProjection forwards forwards 2024 overflowGrouped ∅
      (sharesOnly f64_one) in
  result.2 = None
  ∧ ¬ reported 2024 overflowGrouped 3
  ∧ YearProjection.AvgYoY result.1 = S754_infinity false
  ∧ default f64_zero (priorYear 2024 overflowGrouped !! 3) = f64_zero
  ∧ lastRevenue (stateBefore forwards forwards 2024 overflowGrouped ∅ 3)
    = f64_zero
  ∧ (λ estimate,
       (MonthEstimate.Revenue estimate, MonthEstimate.HasReference estimate))
      <$> YearProjection.Months result.1 !! 2%nat
    = Some (S754_nan, false).
Proof.
  split_and!;
    [vm_compute; reflexivity | | vm_compute; reflexivity
    | vm_compute; reflexivity | vm_compute; reflexivity
    | vm_compute; reflexivity].
  apply not_reported_lookup. vm_compute. reflexivity.
Qed.

(** C2, amended.  For every missing month of the target year, the effective
    rate is the manual override of the month if there is one and [AvgYoY]
    otherwise; if the prior-year revenue is above 0 the revenue is
    [previousYearRevenue * (1 + yoy)] with a reference; else if the running
    last-known revenue is above 0 the revenue is
    [previousMonthRevenue * (1 + AvgMoM)] with a reference; else the revenue
    is again [previousYearRevenue * (1 + yoy)], without a reference, which is
    a zero when the prior-year revenue is a zero and [1 + yoy] is finite. *)
Theorem C2_missing_month_priority
    (range117 range129 : MapOrder) (year : Z)
    (grouped : gmap Z (list MonthlyRevenue.t)) (manualYoY : gmap Z float64)
    (asm : Assumptions.t) (m : Z) :
  let result := BuildYearProjection range117 range129 year grouped manualYoY asm in
  let previousYearRevenue := default f64_zero (priorYear year grouped !! m) in
  let previousMonthRevenue :=
    lastRevenue (stateBefore range117 range129 year grouped manualYoY m) in
  let yoy := default (YearProjection.AvgYoY result.1) (manualYoY !! m) in
  result.2 = None →
  1 ≤ m ≤ 12 →
  ¬ reported year grouped m →
  ∃ estimate,
    YearProjection.Months result.1 !! Z.to_nat (m - 1) = Some estimate
    ∧ MonthEstimate.Month estimate = m
    ∧ MonthEstimate.IsActual estimate = false
    ∧ MonthEstimate.PreviousRevenue estimate = previousYearRevenue
    ∧ MonthEstimate.PreviousMonthRevenue estimate = previousMonthRevenue
    ∧ MonthEstimate.YoY estimate = yoy
    ∧ if gt_zero previousYearRevenue then
        MonthEstimate.Revenue estimate
        = (previousYearRevenue * (f64_one + yoy))%f64
        ∧ MonthEstimate.HasReference estimate = true
      else if gt_zero previousMonthRevenue then
        MonthEstimate.Revenue estimate
        = (previousMonthRevenue
           * (f64_one + YearProjection.AvgMoM result.1))%f64
        ∧ MonthEstimate.HasReference estimate = true
      else
        MonthEstimate.Revenue estimate
        = (previousYearRevenue * (f64_one + yoy))%f64
        ∧ MonthEstimate.HasReference estimate = false
        ∧ (is_zero previousYearRevenue = true →
           is_finite (f64_one + yoy)%f64 = true →
           is_zero (MonthEstimate.Revenue estimate) = true).
Proof.
  intros result previousYearRevenue previousMonthRevenue yoy Hok Hm Hmissing.
  eexists. split; [by apply missing_month_estimate|].
  fold result previousYearRevenue previousMonthRevenue.
  unfold missingEstimate.
  fold previousYearRevenue.
  replace (match manualYoY !! m with
           | Some v => v
           | None => YearProjection.AvgYoY result.1
           end) with yoy by (subst yoy; by destruct (manualYoY !! m)).
  destruct (gt_zero previousYearRevenue) eqn:Hyear;
    [|destruct (gt_zero previousMonthRevenue) eqn:Hmonth]; simpl;
    split_and!; try done.
  intros Hzero Hfinite. by apply f64_mul_zero_l.
Qed.

Lemma C2_witness :
  let result :=
    BuildYearProjection forwards backwards 2024 testGrouped testManual
      testAssumptions in
  ∃ estimate,
    YearProjection.Months result.1 !! 2%nat = Some estimate
    ∧ MonthEstimate.Revenue estimate = float64_of_int 352
    ∧ MonthEstimate.HasReference estimate = true.
Proof.
  destruct (C2_missing_month_priority forwards backwards 2024 testGrouped
              testManual testAssumptions 3)
    as (estimate & Hlookup & _ & _ & _ & _ & _ & Hrule);
    [vm_compute; reflexivity | lia
    | apply not_reported_lookup; vm_compute; reflexivity | ].
  exists estimate. split; [exact Hlookup|].
  replace (gt_zero (default f64_zero (priorYear 2024 testGrouped !! 3)))
    with true in Hrule by (vm_compute; reflexivity).
  destruct Hrule as [Hrevenue Hreference]. split; [|exact Hreference].
  rewrite Hrevenue. vm_compute. reflexivity.
Defined.

(** C3.  Whenever [BuildYearProjection] succeeds, [Months] holds exactly 12
    estimates whose months are January to December in this order, and
    [Quarters] holds exactly 4 breakdowns whose quarters are 1, 2, 3, 4 in this
    order, whatever months were reported. *)
Theorem C3_twelve_months_four_quarters
    (range117 range129 : MapOrder) (year : Z)
    (grouped : gmap Z (list MonthlyRevenue.t)) (manualYoY : gmap Z float64)
    (asm : Assumptions.t) :
  let result := BuildYearProjection range117 range129 year grouped manualYoY asm in
  result.2 = None →
  length (YearProjection.Months result.1) = 12%nat
  ∧ MonthEstimate.Month <$> YearProjection.Months result.1
    = [1; 2; 3; 4; 5; 6; 7; 8; 9; 10; 11; 12]
  ∧ length (YearProjection.Quarters result.1) = 4%nat
  ∧ QuarterBreakdown.Quarter <$> YearProjection.Quarters result.1 = [1; 2; 3; 4].
Proof.
  intros result Hok. subst result. unfold BuildYearProjection in *.
  apply build_success in Hok as (_ & _ & ->). cbn [fst].
  assert (MonthEstimate.Month <$>
            YearProjection.Months
              (buildProjection f64_div range117 range129 year
                 (currentMonths year grouped) (priorYear year grouped)
                 manualYoY asm)
          = [1; 2; 3; 4; 5; 6; 7; 8; 9; 10; 11; 12]) as Hmonths.
  { rewrite projection_Months. apply run_Month. }
  split_and!.
  - by rewrite <- (length_fmap MonthEstimate.Month), Hmonths.
  - done.
  - by rewrite projection_Quarters.
  - rewrite projection_Quarters. simpl. by rewrite !buildQuarter_Quarter.
Qed.

Lemma C3_witness :
  let result :=
    BuildYearProjection forwards backwards 2024 testGrouped testManual
      testAssumptions in
  length (YearProjection.Months result.1) = 12%nat
  ∧ MonthEstimate.Month <$> YearProjection.Months result.1
    = [1; 2; 3; 4; 5; 6; 7; 8; 9; 10; 11; 12]
  ∧ length (YearProjection.Quarters result.1) = 4%nat
  ∧ QuarterBreakdown.Quarter <$> YearProjection.Quarters result.1 = [1; 2; 3; 4].
Proof.
  apply (C3_twelve_months_four_quarters forwards backwards 2024 testGrouped
           testManual testAssumptions).
  vm_compute. reflexivity.
Defined.

(** C4.  For every quarter [q] for which [ActualQuarters] holds a disclosed
    net income above 0, the breakdown of the quarter carries the disclosed net
    income, the disclosed EPS when this is above 0 and otherwise the disclosed
    net income divided by [SharesOutstanding], and is marked actual, whatever
    the months of the quarter are. *)
Theorem C4_disclosed_quarter
    (range117 range129 : MapOrder) (year : Z)
    (grouped : gmap Z (list MonthlyRevenue.t)) (manualYoY : gmap Z float64)
    (asm : Assumptions.t) (q : Z)
    (actualQuarters : gmap Z QuarterActual.t) (actual : QuarterActual.t) :
  let result := BuildYearProjection range117 range129 year grouped manualYoY asm in
  result.2 = None →
  1 ≤ q ≤ 4 →
  Assumptions.ActualQuarters asm = Some actualQuarters →
  actualQuarters !! q = Some actual →
  gt_zero (QuarterActual.NetIncome actual) = true →
  ∃ quarter,
    YearProjection.Quarters result.1 !! Z.to_nat (q - 1) = Some quarter
    ∧ QuarterBreakdown.Quarter quarter = q
    ∧ QuarterBreakdown.NetIncome quarter = QuarterActual.NetIncome actual
    ∧ QuarterBreakdown.EPS quarter
      = (if gt_zero (QuarterActual.EPS actual)
         then QuarterActual.EPS actual
         else f64_div (QuarterActual.NetIncome actual)
                (Assumptions.SharesOutstanding asm))
    ∧ QuarterBreakdown.IsActual quarter = true.
Proof.
  intros result Hok Hq Hmap Hactual Hnet. subst result.
  unfold BuildYearProjection in *.
  apply build_success in Hok as (_ & _ & ->). cbn [fst].
  rewrite projection_Quarters.
  eexists. split; [|split; [apply buildQuarter_Quarter|]].
  - assert (q = 1 ∨ q = 2 ∨ q = 3 ∨ q = 4) as [-> | [-> | [-> | ->]]] by lia;
      reflexivity.
  - by apply (buildQuarter_disclosed _ _ _ _ actualQuarters).
Qed.

Lemma C4_witness :
  let result :=
    BuildYearProjection forwards backwards 2024 testGrouped testManual
      testAssumptions in
  (MonthEstimate.IsActual <$> YearProjection.Months result.1) !! 2%nat
  = Some false
  ∧ ∃ quarter,
      YearProjection.Quarters result.1 !! 0%nat = Some quarter
      ∧ QuarterBreakdown.Quarter quarter = 1
      ∧ QuarterBreakdown.NetIncome quarter = float64_of_int 1000
      ∧ QuarterBreakdown.EPS quarter = ratio 125 100
      ∧ QuarterBreakdown.IsActual quarter = true.
Proof.
  split; [vm_compute; reflexivity|].
  apply (C4_disclosed_quarter forwards backwards 2024 testGrouped testManual
           testAssumptions 1
           (<[1 := QuarterActual.mk (float64_of_int 1000) (ratio 125 100)]> ∅)
           (QuarterActual.mk (float64_of_int 1000) (ratio 125 100)));
    [vm_compute; reflexivity | lia | reflexivity | reflexivity
    | vm_compute; reflexivity].
Defined.

(** C5 fails on the code for January.  With 2023 and 2024 fully reported,
    the month before January 2024 is December 2023, reported as 410; the
    code finds December in the table of 2024 first, and computes the point
    of January, and the previous-month revenue of its estimate, against the
    440 of December 2024. *)
Theorem C5_january_point_uses_december_of_target_year :
  let monthMap := currentMonths 2024 fullYearsGrouped in
  let prevMap := priorYear 2024 fullYearsGrouped in
  let result :=
    BuildYearProjection ascendingOrder ascendingOrder 2024 fullYearsGrouped ∅
      (sharesOnly f64_one) in
  result.2 = None
  ∧ precedingRevenueOfClaim 2024 fullYearsGrouped 1 = Some (float64_of_int 410)
  ∧ rateOf (momRates f64_div ascendingOrder monthMap prevMap) !! 1
    = Some (f64_div (float64_of_int 388 - float64_of_int 440)%f64
              (float64_of_int 440))
  ∧ (λ estimate,
       (MonthEstimate.PreviousMonthRevenue estimate, MonthEstimate.MoM estimate))
      <$> YearProjection.Months result.1 !! 0%nat
    = Some (float64_of_int 440,
            f64_div (float64_of_int 388 - float64_of_int 440)%f64
              (float64_of_int 440))
  ∧ f64_div (float64_of_int 388 - float64_of_int 440)%f64 (float64_of_int 440)
    ≠ f64_div (float64_of_int 388 - float64_of_int 410)%f64 (float64_of_int 410).
Proof.
  split_and!; [vm_compute; reflexivity.. | ].
  vm_compute. discriminate.
Qed.

(** C6 as stated fails: both anchors of March are positive, so the reference
    revenue is the average 12.5 of the candidates 0 and 25, whereas the rule
    of C6 tests the candidates and yields the one positive candidate, 25. *)
Lemma C6_counterexample :
  let result :=
    BuildYearProjection forwards forwards 2024 zeroCandidateGrouped
      zeroCandidateManual (sharesOnly f64_one) in
  let previousYearRevenue :=
    default f64_zero (priorYear 2024 zeroCandidateGrouped !! 3) in
  let previousMonthRevenue :=
    lastRevenue
      (stateBefore forwards forwards 2024 zeroCandidateGrouped
         zeroCandidateManual 3) in
  let revenueYoY :=
    (previousYearRevenue * (f64_one + float64_of_int (-1)))%f64 in
  let revenueMoM :=
    (previousMonthRevenue * (f64_one + YearProjection.AvgMoM result.1))%f64 in
  result.2 = None
  ∧ ¬ reported 2024 zeroCandidateGrouped 3
  ∧ revenueYoY = f64_zero
  ∧ revenueMoM = float64_of_int 25
  ∧ MonthEstimate.ReferenceRevenue <$> YearProjection.Months result.1 !! 2%nat
    = Some (ratio 25 2)
  ∧ referenceRevenueOfCandidates revenueYoY revenueMoM = float64_of_int 25
  ∧ ratio 25 2 ≠ float64_of_int 25.
Proof.
  split_and!; [vm_compute; reflexivity | | vm_compute; reflexivity..
              | vm_compute; discriminate].
  apply not_reported_lookup. vm_compute. reflexivity.
Qed.

(** C6, amended.  For every missing month, [ReferenceRevenue] is the average
    of the two candidate revenues when both anchors, the prior-year revenue
    and the running last-known revenue, are above 0; otherwise it is the
    candidate whose anchor is above 0; otherwise it is 0. *)
Theorem C6_reference_revenue
    (range117 range129 : MapOrder) (year : Z)
    (grouped : gmap Z (list MonthlyRevenue.t)) (manualYoY : gmap Z float64)
    (asm : Assumptions.t) (m : Z) :
  let result := BuildYearProjection range117 range129 year grouped manualYoY asm in
  let previousYearRevenue := default f64_zero (priorYear year grouped !! m) in
  let previousMonthRevenue :=
    lastRevenue (stateBefore range117 range129 year grouped manualYoY m) in
  let yoy := default (YearProjection.AvgYoY result.1) (manualYoY !! m) in
  let revenueYoY := (previousYearRevenue * (f64_one + yoy))%f64 in
  let revenueMoM :=
    (previousMonthRevenue * (f64_one + YearProjection.AvgMoM result.1))%f64 in
  result.2 = None →
  1 ≤ m ≤ 12 →
  ¬ reported year grouped m →
  ∃ estimate,
    YearProjection.Months result.1 !! Z.to_nat (m - 1) = Some estimate
    ∧ MonthEstimate.ReferenceRevenue estimate
      = if gt_zero previousYearRevenue && gt_zero previousMonthRevenue
        then f64_div (revenueYoY + revenueMoM)%f64 f64_two
        else if gt_zero previousYearRevenue then revenueYoY
        else if gt_zero previousMonthRevenue then revenueMoM
        else f64_zero.
Proof.
  intros result previousYearRevenue previousMonthRevenue yoy revenueYoY
    revenueMoM Hok Hm Hmissing.
  eexists. split; [by apply missing_month_estimate|].
  fold result previousYearRevenue previousMonthRevenue.
  unfold missingEstimate. fold previousYearRevenue.
  replace (match manualYoY !! m with
           | Some v => v
           | None => YearProjection.AvgYoY result.1
           end) with yoy by (subst yoy; by destruct (manualYoY !! m)).
  unfold chooseReferenceRevenue. fold previousYearRevenue.
  subst revenueYoY revenueMoM.
  by destruct (gt_zero previousYearRevenue), (gt_zero previousMonthRevenue).
Qed.

Lemma C6_witness :
  let result :=
    BuildYearProjection forwards backwards 2024 testGrouped testManual
      testAssumptions in
  ∃ estimate,
    YearProjection.Months result.1 !! 2%nat = Some estimate
    ∧ gt_zero (MonthEstimate.ReferenceRevenue estimate) = true.
Proof.
  destruct (C6_reference_revenue forwards backwards 2024 testGrouped
              testManual testAssumptions 3)
    as (estimate & Hlookup & Hreference);
    [vm_compute; reflexivity | lia
    | apply not_reported_lookup; vm_compute; reflexivity | ].
  exists estimate. split; [exact Hlookup|].
  rewrite Hreference. vm_compute. reflexivity.
Defined.

(** C7 as stated fails: with no record for the year, a share count of 0 is
    answered with the missing-year error. *)
Lemma C7_counterexample :
  le_zero (Assumptions.SharesOutstanding (sharesOnly f64_zero)) = true
  ∧ BuildYearProjection forwards forwards 2024 ∅ ∅ (sharesOnly f64_zero)
    = (YearProjection.zero, Some (ErrMissingYear 2024))
  ∧ ErrMissingYear 2024 ≠ ErrSharesOutstanding.
Proof.
  split_and!; [vm_compute; reflexivity | vm_compute; reflexivity | discriminate].
Qed.

(** C7, amended.  For every input with [SharesOutstanding <= 0],
    [BuildYearProjection] returns an error together with the zero-value
    [YearProjection], with no partial output: the invalid-assumption error when
    the requested year has at least one revenue record, and the missing-year
    error, which is checked first, when it has none. *)
Theorem C7_invalid_shares
    (range117 range129 : MapOrder) (year : Z)
    (grouped : gmap Z (list MonthlyRevenue.t)) (manualYoY : gmap Z float64)
    (asm : Assumptions.t) :
  le_zero (Assumptions.SharesOutstanding asm) = true →
  BuildYearProjection range117 range129 year grouped manualYoY asm
  = (YearProjection.zero,
     Some (match default [] (grouped !! year) with
           | [] => ErrMissingYear year
           | _ :: _ => ErrSharesOutstanding
           end)).
Proof.
  intros Hle. unfold BuildYearProjection.
  destruct (default [] (grouped !! year)) as [|rec records] eqn:Hrecords.
  - by apply build_missing_year.
  - apply build_invalid_shares; [|done]. by rewrite Hrecords.
Qed.

Lemma C7_witness :
  BuildYearProjection forwards forwards 2024 testGrouped ∅
    (sharesOnly f64_zero)
  = (YearProjection.zero, Some ErrSharesOutstanding).
Proof.
  apply (C7_invalid_shares forwards forwards 2024 testGrouped ∅
           (sharesOnly f64_zero)).
  reflexivity.
Defined.

(** C8.  A month of the target year, January to December, that has exactly
    one reported record (of that year) is actual in a successful projection,
    and its revenue is the reported revenue itself. *)
Theorem C8_actual_month_keeps_reported_revenue
    (range117 range129 : MapOrder) (year : Z)
    (grouped : gmap Z (list MonthlyRevenue.t)) (manualYoY : gmap Z float64)
    (asm : Assumptions.t) (rec : MonthlyRevenue.t) :
  let result := BuildYearProjection range117 range129 year grouped manualYoY asm in
  result.2 = None →
  rec ∈ default [] (grouped !! year) →
  MonthlyRevenue.Year rec = year →
  1 ≤ MonthlyRevenue.Month rec ≤ 12 →
  (∀ rec', rec' ∈ default [] (grouped !! year) →
           MonthlyRevenue.Year rec' = year →
           MonthlyRevenue.Month rec' = MonthlyRevenue.Month rec →
           rec' = rec) →
  ∃ estimate,
    YearProjection.Months result.1 !! Z.to_nat (MonthlyRevenue.Month rec - 1)
    = Some estimate
    ∧ MonthEstimate.Year estimate = year
    ∧ MonthEstimate.Month estimate = MonthlyRevenue.Month rec
    ∧ MonthEstimate.IsActual estimate = true
    ∧ MonthEstimate.Revenue estimate = MonthlyRevenue.Revenue rec.
Proof.
  intros result Hok Hin Hy Hm Huniq. subst result.
  unfold BuildYearProjection in *.
  apply build_success in Hok as (_ & _ & ->). cbn [fst].
  eexists. split; [by apply projection_Months_lookup|].
  unfold stepEstimate. by rewrite (currentMonths_unique year grouped rec).
Qed.

Lemma C8_witness :
  let result :=
    BuildYearProjection forwards backwards 2024 testGrouped testManual
      testAssumptions in
  ∃ estimate,
    YearProjection.Months result.1 !! 1%nat = Some estimate
    ∧ MonthEstimate.Year estimate = 2024
    ∧ MonthEstimate.Month estimate = 2
    ∧ MonthEstimate.IsActual estimate = true
    ∧ MonthEstimate.Revenue estimate = float64_of_int 388.
Proof.
  apply (C8_actual_month_keeps_reported_revenue forwards backwards 2024
           testGrouped testManual testAssumptions
           (MonthlyRevenue.mk 2024 2 (float64_of_int 388)));
    [vm_compute; reflexivity | | reflexivity | simpl; lia | ].
  - change (default [] (testGrouped !! 2024))
      with (buildMonthlyRevenue 2024 [388; 388]).
    simpl. apply elem_of_cons. right. apply elem_of_cons. by left.
  - change (default [] (testGrouped !! 2024))
      with (buildMonthlyRevenue 2024 [388; 388]).
    simpl. intros rec' Hin _ Hmonth.
    apply elem_of_cons in Hin as [->|Hin]; [discriminate Hmonth|].
    apply list_elem_of_singleton in Hin. exact Hin.
Defined.

(** C9.  No division of [BuildYearProjection] is reached with a divisor that
    is [<= 0]: replacing [/] by any operation that agrees with it on the
    divisors that are not [<= 0] changes neither the projection nor the
    error, for any input.  The divisors are prior-year revenues,
    previous-month revenues, the share count, the current price, the two
    sample counts and the constant 2; each of the former sits behind a test
    [> 0] or [<= 0] of the source, and a positive sample count converts to a
    positive float64.  A divisor that
    is not [<= 0] is never a zero; it is above 0 unless it is a NaN, so that
    when no revenue and no share count is a NaN the two operations need only
    agree on the divisors above 0.  When a guard fails, 0 is what is yielded:
    an average is 0 for an empty sample and [Upside] is 0 for a current price
    not above 0. *)
Theorem C9_divisions_are_guarded
    (div1 div2 : float64 → float64 → float64)
    (range117 range129 : MapOrder) (year : Z)
    (grouped : gmap Z (list MonthlyRevenue.t)) (manualYoY : gmap Z float64)
    (asm : Assumptions.t) :
  let result1 :=
    BuildYearProjectionWith div1 range117 range129 year grouped manualYoY asm in
  let result2 :=
    BuildYearProjectionWith div2 range117 range129 year grouped manualYoY asm in
  (∀ x d, le_zero d = false → div1 x d = div2 x d) →
  result1 = result2
  ∧ (∀ d, le_zero d = false → is_zero d = false)
  ∧ (∀ acc : rates, rateCount acc ≤ 0 → average div1 acc = f64_zero)
  ∧ (result1.2 = None →
     gt_zero (Assumptions.CurrentPrice asm) = false →
     YearProjection.Upside result1.1 = f64_zero)
  ∧ ((∀ y rec, rec ∈ default [] (grouped !! y) →
               is_nan (MonthlyRevenue.Revenue rec) = false) →
     is_nan (Assumptions.SharesOutstanding asm) = false →
     ∀ div3 : float64 → float64 → float64,
       (∀ x d, gt_zero d = true → div1 x d = div3 x d) →
       result1
       = BuildYearProjectionWith div3 range117 range129 year grouped manualYoY
           asm).
Proof.
  intros result1 result2 Hagree. split_and!.
  - apply (BuildYearProjectionWith_agree div1 div2
             (λ d, negb (le_zero d)) (λ _, True)); try done.
    + intros x d Hok%negb_true_iff. by apply Hagree.
    + intros d Hgt. by rewrite gt_zero_not_le_zero.
    + by intros d _ ->.
  - intros d. by destruct d as [[]|[]| |[]].
  - intros acc Hcount. unfold average.
    by destruct (Z.ltb_spec 0 (rateCount acc)); [lia|].
  - intros Hok Hprice. subst result1.
    apply build_success in Hok as (_ & _ & ->).
    cbn [fst]. unfold buildProjection. simpl. by rewrite Hprice.
  - intros Hrecords Hshares div3 Hagree3. by apply divisors_are_positive.
Qed.

Lemma C9_witness :
  BuildYearProjection forwards backwards 2024 testGrouped testManual
    testAssumptions
  = BuildYearProjectionWith guardedDiv forwards backwards 2024 testGrouped
      testManual testAssumptions.
Proof.
  refine (proj1 (C9_divisions_are_guarded f64_div guardedDiv forwards
                   backwards 2024 testGrouped testManual testAssumptions _)).
  intros x d Hguard. unfold guardedDiv. rewrite Hguard. reflexivity.
Defined.

(** C10 as stated fails in its last clause.  January is reported as 0 and
    the months after it are missing.  February, whose prior-year revenue -5
    is not positive, gets the revenue -5.  March has a prior-year revenue of
    100 and is estimated at 100, which restores the running revenue, so that
    April, which has no prior-year revenue at all, gets a reference and the
    revenue 100. *)
Lemma C10_counterexample :
  let result :=
    BuildYearProjection forwards forwards 2024 zeroJanuaryGrouped ∅
      (sharesOnly f64_one) in
  let estimateOf (i : nat) :=
    (λ estimate,
       (MonthEstimate.Revenue estimate, MonthEstimate.HasReference estimate))
      <$> YearProjection.Months result.1 !! i in
  result.2 = None
  ∧ currentMonths 2024 zeroJanuaryGrouped !! 1
    = Some (MonthlyRevenue.mk 2024 1 f64_zero)
  ∧ ¬ reported 2024 zeroJanuaryGrouped 2
  ∧ ¬ reported 2024 zeroJanuaryGrouped 4
  ∧ gt_zero (default f64_zero (priorYear 2024 zeroJanuaryGrouped !! 2)) = false
  ∧ gt_zero (default f64_zero (priorYear 2024 zeroJanuaryGrouped !! 4)) = false
  ∧ estimateOf 1%nat = Some (float64_of_int (-5), false)
  ∧ estimateOf 3%nat = Some (float64_of_int 100, true)
  ∧ is_zero (float64_of_int (-5)) = false.
Proof.
  split_and!;
    [vm_compute; reflexivity | vm_compute; reflexivity
    | apply not_reported_lookup; vm_compute; reflexivity
    | apply not_reported_lookup; vm_compute; reflexivity
    | vm_compute; reflexivity..].
Qed.

(** C10, amended.  Across a reported month the running last-known revenue
    becomes the reported revenue, whatever its value; across a missing month
    it becomes the estimate only when the estimate is above 0 and is kept
    otherwise.  Hence, after a month reported as 0 (or as anything not above
    0), a missing next month whose prior-year revenue is not above 0 has no
    reference and gets the revenue [previousYearRevenue * (1 + yoy)], which is
    a zero when the prior-year revenue is a zero and [1 + yoy] is finite. *)
Theorem C10_running_revenue
    (range117 range129 : MapOrder) (year : Z)
    (grouped : gmap Z (list MonthlyRevenue.t)) (manualYoY : gmap Z float64)
    (asm : Assumptions.t) (m : Z) :
  let result := BuildYearProjection range117 range129 year grouped manualYoY asm in
  let before :=
    lastRevenue (stateBefore range117 range129 year grouped manualYoY m) in
  let after :=
    lastRevenue (stateBefore range117 range129 year grouped manualYoY (m + 1)) in
  let nextYearRevenue := default f64_zero (priorYear year grouped !! (m + 1)) in
  let nextYoY := default (YearProjection.AvgYoY result.1) (manualYoY !! (m + 1)) in
  result.2 = None →
  1 ≤ m ≤ 11 →
  (∀ rec, currentMonths year grouped !! m = Some rec →
     after = MonthlyRevenue.Revenue rec
     ∧ (gt_zero (MonthlyRevenue.Revenue rec) = false →
        ¬ reported year grouped (m + 1) →
        gt_zero nextYearRevenue = false →
        ∃ estimate,
          YearProjection.Months result.1 !! Z.to_nat m = Some estimate
          ∧ MonthEstimate.PreviousMonthRevenue estimate
            = MonthlyRevenue.Revenue rec
          ∧ MonthEstimate.HasReference estimate = false
          ∧ MonthEstimate.Revenue estimate
            = (nextYearRevenue * (f64_one + nextYoY))%f64
          ∧ (is_zero nextYearRevenue = true →
             is_finite (f64_one + nextYoY)%f64 = true →
             is_zero (MonthEstimate.Revenue estimate) = true)))
  ∧ (¬ reported year grouped m →
     ∃ estimate,
       YearProjection.Months result.1 !! Z.to_nat (m - 1) = Some estimate
       ∧ MonthEstimate.IsActual estimate = false
       ∧ after = if gt_zero (MonthEstimate.Revenue estimate)
                 then MonthEstimate.Revenue estimate
                 else before).
Proof.
  intros result before after nextYearRevenue nextYoY Hok Hm. split.
  - intros rec Hrec.
    assert (after = MonthlyRevenue.Revenue rec) as Hafter
      by (apply lastRevenue_after_actual; [lia|done]).
    split; [done|]. intros Hzero Hmissing Hyear.
    destruct (missing_month_unanchored range117 range129 year grouped
                manualYoY asm (m + 1))
      as (estimate & Hlookup & Hprevious & Hreference & Hrevenue);
      [done | lia | done | done | by fold after; rewrite Hafter |].
    fold after nextYearRevenue result nextYoY in Hprevious, Hrevenue.
    exists estimate. replace (m + 1 - 1) with m in Hlookup by lia.
    split_and!; [done | by rewrite Hprevious | done | done |].
    intros Hnone Hfinite. rewrite Hrevenue. by apply f64_mul_zero_l.
  - intros Hmissing. eexists.
    split; [apply missing_month_estimate; [done|lia|done]|].
    split.
    + unfold missingEstimate.
      by destruct (gt_zero (default f64_zero (priorYear year grouped !! m))),
        (gt_zero (lastRevenue
                    (stateBefore range117 range129 year grouped manualYoY m))).
    + apply lastRevenue_after_missing; [done|lia|done].
Qed.

Lemma C10_witness :
  let result :=
    BuildYearProjection forwards forwards 2024 zeroFebruaryGrouped ∅
      (sharesOnly f64_one) in
  lastRevenue (stateBefore forwards forwards 2024 zeroFebruaryGrouped ∅ 3)
  = f64_zero
  ∧ ∃ estimate,
      YearProjection.Months result.1 !! 2%nat = Some estimate
      ∧ MonthEstimate.HasReference estimate = false
      ∧ is_zero (MonthEstimate.Revenue estimate) = true.
Proof.
  destruct (C10_running_revenue forwards forwards 2024 zeroFebruaryGrouped ∅
              (sharesOnly f64_one) 2) as [Hactual _];
    [vm_compute; reflexivity | lia |].
  destruct (Hactual (MonthlyRevenue.mk 2024 2 f64_zero)) as [Hafter Hnext];
    [vm_compute; reflexivity|].
  split; [exact Hafter|].
  destruct Hnext as (estimate & Hlookup & _ & Hreference & _ & Hzero);
    [reflexivity | apply not_reported_lookup; vm_compute; reflexivity
    | vm_compute; reflexivity |].
  exists estimate. split; [exact Hlookup|]. split; [exact Hreference|].
  apply Hzero; vm_compute; reflexivity.
Defined.
